(** * kmip-cli: a shallow embedding of [main.go] and the properties of its
    request/response plumbing.

    The program is a thin command-line client: it opens a TLS session,
    reads one request (hexadecimal text or XML), writes it to the server,
    reads one TTLV node back, checks the batch items and prints the answer.

    Conventions of the embedding.
    - A Go [string] is a Rocq [string] (a sequence of bytes), a Go [[]byte]
      is a [list byte]; a nil slice is the empty list.
    - A Go [error] value is an element of the type [error] below, the nil
      error is [None].
    - Functions of the Go standard library whose behaviour is short and
      fixed ([encoding/hex], [strings.TrimSpace], [fmt.Println],
      [log.Fatalf]) are written out; the TTLV and XML codecs of kmip-go, the
      X.509 loader, the file system and the network are fields of the
      records [Lib] and [Env].  The general theorems hold for every [Lib]
      and [Env]; the runs at the end use the ones of the module [Sample].
    - Input and output are explicit state passing over [State].
    - [main] starts from the parsed command line: [flag.Parse] is not part
      of the embedding. *)

From Stdlib Require Import ZArith NArith Lia List.
From Stdlib.Strings Require Import String Ascii Byte.
From stdpp Require Import base option list strings pretty.

Open Scope string_scope.

(** ** Go values *)

Module Go.

(** The error values that can flow through the program.  [io_EOF] is the
    sentinel [io.EOF], which the code compares with [==]. *)
Inductive error : Type :=
| io_EOF
| hex_ErrLength
| hex_InvalidByteError (c : ascii)
| errorString (msg : string)
| wrapError (msg : string) (err : error).

Definition newline : string := String (ascii_of_N 10) "".

(** *** [fmt]'s [%#U] for a value below 256, used by
    [hex.InvalidByteError.Error]. *)

Definition upperhex_at (n : N) : ascii :=
  nth (N.to_nat n) (list_ascii_of_string "0123456789ABCDEF") "0"%char.

(** [strconv.IsPrint] on the Latin-1 range. *)
Definition strconv_IsPrint (r : N) : bool :=
  if (32 <=? r)%N && (r <=? 126)%N then true
  else if (161 <=? r)%N && (r <=? 255)%N then negb (r =? 173)%N
  else false.

(** UTF-8 encoding of a rune below 256. *)
Definition utf8_encode_latin1 (r : N) : string :=
  if (r <? 128)%N then String (ascii_of_N r) ""
  else String (ascii_of_N (N.lor 192 (N.shiftr r 6)))
         (String (ascii_of_N (N.lor 128 (N.land r 63))) "").

Definition fmt_sharpU (c : ascii) : string :=
  let r := N_of_ascii c in
  "U+00" ++ String (upperhex_at (N.shiftr r 4)) (String (upperhex_at (N.land r 15)) "")
    ++ (if strconv_IsPrint r then " '" ++ utf8_encode_latin1 r ++ "'" else "").

(** [err.Error()]. *)
Definition Error (e : error) : string :=
  match e with
  | io_EOF => "EOF"
  | hex_ErrLength => "encoding/hex: odd length hex string"
  | hex_InvalidByteError c => "encoding/hex: invalid byte: " ++ fmt_sharpU c
  | errorString msg => msg
  | wrapError msg _ => msg
  end.

(** [fmt.Errorf(prefix + "%w", err)]: the message is the prefix followed
    by the message of the wrapped error. *)
Definition fmt_Errorf_w (prefix : string) (err : error) : error :=
  wrapError (prefix ++ Error err) err.

(** [err == io.EOF]. *)
Definition is_EOF (e : error) : bool :=
  match e with io_EOF => true | _ => false end.

(** A byte stream to be read: the bytes it delivers, then the error that
    ends it ([None] is a clean end of file). *)
Record Reader : Type := mkReader {
  r_data : list byte;
  r_err : option error
}.

(** [ioutil.ReadAll]: end of file is not an error. *)
Definition ioutil_ReadAll (r : Reader) : list byte * option error :=
  (r_data r, r_err r).

End Go.
Export Go.

(** ** [encoding/hex] *)

Module Hex.

Definition hextable : string := "0123456789abcdef".

Definition hextable_at (n : N) : ascii :=
  nth (N.to_nat n) (list_ascii_of_string hextable) "0"%char.

Definition byte_of_N (n : N) : byte :=
  match Byte.of_N n with Some b => b | None => x00 end.

(** [Encode]: [dst[j] = hextable[v>>4]; dst[j+1] = hextable[v&0x0f]]. *)
Fixpoint EncodeToString (src : list byte) : string :=
  match src with
  | [] => ""
  | v :: rest =>
      String (hextable_at (N.shiftr (Byte.to_N v) 4))
        (String (hextable_at (N.land (Byte.to_N v) 15)) (EncodeToString rest))
  end.

(** [reverseHexTable]: 0xff marks a byte that is not a hex digit. *)
Definition reverseHexTable (c : ascii) : N :=
  let n := N_of_ascii c in
  if (48 <=? n)%N && (n <=? 57)%N then (n - 48)%N
  else if (97 <=? n)%N && (n <=? 102)%N then (n - 87)%N
  else if (65 <=? n)%N && (n <=? 70)%N then (n - 55)%N
  else 255%N.

(** [DecodeString]: pairs of digits from the left; the bytes decoded
    before a failure are returned together with the error.  An odd
    length is reported after a bad last character. *)
Fixpoint DecodeString (s : string) : list byte * option error :=
  match s with
  | "" => ([], None)
  | String p "" =>
      if (15 <? reverseHexTable p)%N then ([], Some (hex_InvalidByteError p))
      else ([], Some hex_ErrLength)
  | String p (String q rest) =>
      let a := reverseHexTable p in
      let b := reverseHexTable q in
      if (15 <? a)%N then ([], Some (hex_InvalidByteError p))
      else if (15 <? b)%N then ([], Some (hex_InvalidByteError q))
      else
        let '(dst, err) := DecodeString rest in
        (byte_of_N (N.lor (N.shiftl a 4) b) :: dst, err)
  end.

End Hex.

(** ** [strings.TrimSpace] *)

Module Strings.

Definition bytes (l : list N) : list ascii := map ascii_of_N l.

(** The UTF-8 encodings of the runes for which [unicode.IsSpace] holds:
    the six ASCII ones, U+0085, U+00A0, U+1680, U+2000..U+200A, U+2028,
    U+2029, U+202F, U+205F and U+3000. *)
Definition space_runes : list (list ascii) :=
  Eval cbv in
    map bytes
      [ [9]; [10]; [11]; [12]; [13]; [32];
        [194; 133]; [194; 160];
        [225; 154; 128];
        [226; 128; 128]; [226; 128; 129]; [226; 128; 130]; [226; 128; 131];
        [226; 128; 132]; [226; 128; 133]; [226; 128; 134]; [226; 128; 135];
        [226; 128; 136]; [226; 128; 137]; [226; 128; 138];
        [226; 128; 168]; [226; 128; 169]; [226; 128; 175];
        [226; 129; 159];
        [227; 128; 128] ]%N.

Fixpoint has_prefix (t l : list ascii) : bool :=
  match t, l with
  | [], _ => true
  | a :: t', b :: l' => Ascii.eqb a b && has_prefix t' l'
  | _ :: _, [] => false
  end.

(** Drop encoded runes from the front while one of [runes] is there.
    [fuel] bounds the number of runes dropped. *)
Fixpoint trim_front (runes : list (list ascii)) (fuel : nat) (l : list ascii)
  : list ascii :=
  match fuel with
  | O => l
  | S fuel' =>
      match find (fun t => has_prefix t l) runes with
      | Some t => trim_front runes fuel' (drop (length t) l)
      | None => l
      end
  end.

(** [TrimLeftFunc(s, unicode.IsSpace)] *)
Definition trimLeft (l : list ascii) : list ascii :=
  trim_front space_runes (length l) l.

(** [TrimRightFunc(s, unicode.IsSpace)]: the same scan from the end,
    where the last rune is a space exactly when the string ends with one
    of the encodings above. *)
Definition trimRight (l : list ascii) : list ascii :=
  rev (trim_front (map (@rev ascii) space_runes) (length l) (rev l)).

Definition TrimSpace (s : string) : string :=
  string_of_list_ascii (trimRight (trimLeft (list_ascii_of_string s))).

(** The table [asciiSpace] of the package. *)
Definition asciiSpace (c : ascii) : bool :=
  let n := N_of_ascii c in
  (n =? 9)%N || (n =? 10)%N || (n =? 11)%N || (n =? 12)%N || (n =? 13)%N
  || (n =? 32)%N.

End Strings.

(** ** The KMIP and TLS data the program handles *)

Module Kmip.

(** [ttlv.TTLV] is a byte slice holding one encoded node. *)
Definition TTLV : Type := list byte.

(** [kmip14.ResultStatus] is a 32-bit enumeration. *)
Definition ResultStatus : Type := N.
Definition ResultStatusSuccess : ResultStatus := 0%N.
Definition ResultStatusOperationFailed : ResultStatus := 1%N.
Definition ResultStatusOperationPending : ResultStatus := 2%N.
Definition ResultStatusOperationUndone : ResultStatus := 3%N.

Record ResponseBatchItem : Type := mkBatchItem {
  Operation : N;
  ResultStatus_of : ResultStatus;
  ResultReason : N;
  ResultMessage : string
}.

Record ResponseHeader : Type := mkHeader {
  BatchCount : Z
}.

Record ResponseMessage : Type := mkResponse {
  Header : ResponseHeader;
  BatchItem : list ResponseBatchItem
}.

End Kmip.
Export Kmip.

Module Tls.

Record Certificate : Type := mkCertificate {
  cert_chain : list (list byte);
  cert_key : list byte
}.

(** An [x509.CertPool] is the list of the certificates added to it. *)
Definition CertPool : Type := list (list byte).
Definition NewCertPool : CertPool := [].

Definition VersionTLS12 : N := 771%N.

(** The fields of [tls.Config] the program sets; a nil [RootCAs] is
    [None]. *)
Record Config : Type := mkConfig {
  Certificates : list Certificate;
  MinVersion : N;
  RootCAs : option CertPool;
  InsecureSkipVerify : bool
}.

End Tls.
Export Tls.

(** An [io.ReadWriter]: what a write of the request returns, and the bytes
    the other side then delivers. *)
Record ReadWriter : Type := mkReadWriter {
  rw_Write : list byte -> option error;
  rw_Read : list byte -> Reader
}.

(** The library functions the program calls and that are not written out
    here. *)
Record Lib : Type := mkLib {
  (** [ttlv.Decoder.NextTTLV] on a stream: the bytes of the node, or the
      bytes read so far together with an error. *)
  ttlv_NextTTLV : Reader -> TTLV * option error;
  (** [ttlv.Decoder.DecodeValue(&respMsg, resp)] *)
  ttlv_DecodeValue : TTLV -> error + ResponseMessage;
  (** [kmip14.ResultStatus.String] *)
  ResultStatus_String : ResultStatus -> string;
  (** [xml.NewDecoder(r).Decode(&raw)] for [raw] a [ttlv.TTLV] *)
  xml_Decode : string -> error + TTLV;
  (** [xml.MarshalIndent(response, prefix, indent)] *)
  xml_MarshalIndent : TTLV -> string -> string -> error + list byte;
  (** [x509.CertPool.AppendCertsFromPEM] *)
  x509_AppendCertsFromPEM : CertPool -> list byte -> CertPool;
  (** the [%q] verb of [fmt] on a string *)
  strconv_Quote : string -> string;
  (** what [flag.PrintDefaults] writes for the flags of [main] *)
  flag_defaults : string
}.

(** The world outside the process. *)
Record Env : Type := mkEnv {
  tls_LoadX509KeyPair : string -> string -> error + Certificate;
  ioutil_ReadFile : string -> error + list byte;
  tls_Dial : string -> string -> Config -> error + ReadWriter;
  os_Open : string -> error + Reader;
  os_Stdin : Reader
}.

(** ** The state of the process *)

Inductive ConnStatus : Type := NotConnected | Connected | Closed.

Record State : Type := mkState {
  st_stdout : string;
  st_stderr : string;
  (** the calls of [tls.Dial] so far, oldest first *)
  st_dials : list (string * Config);
  st_conn : ConnStatus;
  (** the bytes written to the connection *)
  st_written : list byte;
  (** files opened and not yet closed *)
  st_files : nat;
  (** the calls of [os.Open] so far, oldest first *)
  st_opens : list string
}.

Definition initial : State :=
  mkState "" "" [] NotConnected [] 0 [].

Definition to_stdout (text : string) (s : State) : State :=
  mkState (st_stdout s ++ text) (st_stderr s) (st_dials s) (st_conn s)
    (st_written s) (st_files s) (st_opens s).

Definition to_stderr (text : string) (s : State) : State :=
  mkState (st_stdout s) (st_stderr s ++ text) (st_dials s) (st_conn s)
    (st_written s) (st_files s) (st_opens s).

Definition log_dial (addr : string) (conf : Config) (s : State) : State :=
  mkState (st_stdout s) (st_stderr s) (st_dials s ++ [(addr, conf)]) (st_conn s)
    (st_written s) (st_files s) (st_opens s).

Definition set_conn (c : ConnStatus) (s : State) : State :=
  mkState (st_stdout s) (st_stderr s) (st_dials s) c (st_written s) (st_files s)
    (st_opens s).

Definition conn_written (data : list byte) (s : State) : State :=
  mkState (st_stdout s) (st_stderr s) (st_dials s) (st_conn s)
    (st_written s ++ data) (st_files s) (st_opens s).

Definition log_open (path : string) (s : State) : State :=
  mkState (st_stdout s) (st_stderr s) (st_dials s) (st_conn s)
    (st_written s) (st_files s) (st_opens s ++ [path]).

Definition file_opened (s : State) : State :=
  mkState (st_stdout s) (st_stderr s) (st_dials s) (st_conn s)
    (st_written s) (S (st_files s)) (st_opens s).

Definition file_closed (s : State) : State :=
  mkState (st_stdout s) (st_stderr s) (st_dials s) (st_conn s)
    (st_written s) (pred (st_files s)) (st_opens s).

(** [fmt.Println(text)] *)
Definition fmt_Println (text : string) : State -> State :=
  to_stdout (text ++ newline).

(** [conn.Close()] *)
Definition conn_Close : State -> State := set_conn Closed.

(** How [main] ends: by returning, or through [os.Exit]. *)
Inductive Outcome : Type := Returned | Exited (code : Z).

Definition exit_status (o : Outcome) : Z :=
  match o with Returned => 0%Z | Exited code => code end.

Fixpoint ends_with_newline (msg : string) : bool :=
  match msg with
  | "" => false
  | String c "" => Ascii.eqb c (ascii_of_N 10)
  | String _ rest => ends_with_newline rest
  end.

(** [log.Fatalf] with the flags of the logger set to 0: the message, a
    newline unless it ends with one, to standard error; then
    [os.Exit(1)]. *)
Definition log_Fatalf (msg : string) (s : State) : Outcome * State :=
  (Exited 1, to_stderr (if ends_with_newline msg then msg else msg ++ newline) s).

(** [defer d] around the rest of a function body.  The deferred call runs
    when the body returns; [os.Exit] ends the process without running
    it. *)
Definition defer (d : State -> State) (body : State -> Outcome * State)
  (s : State) : Outcome * State :=
  match body s with
  | (Returned, s') => (Returned, d s')
  | (Exited code, s') => (Exited code, s')
  end.

(** The parsed command line. *)
Record Flags : Type := mkFlags {
  serverAddr : string;
  keyFile : string;
  certFile : string;
  caFile : string;
  inputFile : string;
  inputFormat : string;
  outputFormat : string;
  help : bool
}.

(** The values of the flags when none is given. *)
Definition default_flags : Flags :=
  mkFlags "" "" "" "" "" "hex" "hex" false.

(** ** The program *)

Section Program.

Context (L : Lib) (E : Env).

Definition dquote : string := String (ascii_of_N 34) "".

(** [printCustomHelp]: the text goes to standard output, the flag
    defaults go where the [flag] package writes, standard error. *)
Definition printCustomHelp (s : State) : State :=
  let s := fmt_Println "A command-line tool for sending KMIP requests to a server." s in
  let s := fmt_Println (newline ++ "Usage:") s in
  let s := fmt_Println "  kmip-cli -server <ip:port> -key <keyfile> -cert <certfile> [options]" s in
  let s := fmt_Println (newline ++ "Options:") s in
  let s := to_stderr (flag_defaults L) s in
  let s := fmt_Println (newline ++ "Example:") s in
  fmt_Println ("  echo " ++ dquote ++ "42007801..." ++ dquote
               ++ " | kmip-cli -server localhost:5696 -key client.key -cert client.pem") s.

Definition setupConnection (serverAddr keyFile certFile caFile : string)
  (s : State) : (error + ReadWriter) * State :=
  match tls_LoadX509KeyPair E certFile keyFile with
  | inl err => (inl (fmt_Errorf_w "failed to load client key pair: " err), s)
  | inr cer =>
      let conf := mkConfig [cer] VersionTLS12 None false in
      let conf' :=
        if negb (caFile =? "") then
          match ioutil_ReadFile E caFile with
          | inl err => inl (fmt_Errorf_w "failed to read CA certificate: " err)
          | inr caCert =>
              let caCertPool := NewCertPool in
              let caCertPool := x509_AppendCertsFromPEM L caCertPool caCert in
              inr (mkConfig (Certificates conf) (MinVersion conf)
                     (Some caCertPool) (InsecureSkipVerify conf))
          end
        else
          inr (mkConfig (Certificates conf) (MinVersion conf) (RootCAs conf) true)
      in
      match conf' with
      | inl err => (inl err, s)
      | inr conf =>
          let s := log_dial serverAddr conf s in
          match tls_Dial E "tcp" serverAddr conf with
          | inl err => (inl (fmt_Errorf_w "failed to connect to server: " err), s)
          | inr conn => (inr conn, set_conn Connected s)
          end
      end
  end.

Definition xmlToHex (r : string) : string * option error :=
  match xml_Decode L r with
  | inl err => if is_EOF err then ("", None) else ("", Some err)
  | inr raw => (Hex.EncodeToString raw, None)
  end.

Definition readRequest (inputFile inputFormat : string) (s : State)
  : (list byte * option error) * State :=
  let '(opened, s) :=
    if negb (inputFile =? "") then
      let s := log_open inputFile s in
      match os_Open E inputFile with
      | inl err =>
          (inl (fmt_Errorf_w ("failed to open input file " ++ strconv_Quote L inputFile ++ ": ") err), s)
      | inr f => (inr (f, true), file_opened s)
      end
    else
      (inr (os_Stdin E, false),
       fmt_Println "Enter KMIP request, then press Ctrl+D (or Ctrl+Z on Windows) to send:" s)
  in
  match opened with
  | inl err => (([], Some err), s)
  | inr (reader, is_file) =>
      let result :=
        let '(requestBytes, err) := ioutil_ReadAll reader in
        match err with
        | Some err => ([], Some (fmt_Errorf_w "failed to read request: " err))
        | None =>
            let requestStr := Strings.TrimSpace (string_of_list_byte requestBytes) in
            if inputFormat =? "xml" then
              match xmlToHex requestStr with
              | (_, Some err) =>
                  ([], Some (fmt_Errorf_w "failed to convert XML request to hex: " err))
              | (hexRequest, None) => Hex.DecodeString hexRequest
              end
            else Hex.DecodeString requestStr
        end
      in
      (* defer f.Close() *)
      (result, if is_file then file_closed s else s)
  end.

(** The loop over [respMsg.BatchItem], from index [i] on. *)
Fixpoint check_batch_items (i : nat) (items : list ResponseBatchItem)
  : option error :=
  match items with
  | [] => None
  | item :: rest =>
      if negb (ResultStatus_of item =? ResultStatusSuccess)%N then
        Some (errorString
                ("KMIP operation in batch item " ++ pretty i ++ " failed: "
                 ++ ResultStatus_String L (ResultStatus_of item) ++ " - "
                 ++ ResultMessage item))
      else check_batch_items (S i) rest
  end.

Definition sendRequest (conn : ReadWriter) (request : list byte) (s : State)
  : (TTLV * string * option error) * State :=
  match rw_Write conn request with
  | Some err => (([], "Unable to write request", Some err), s)
  | None =>
      let s := conn_written request s in
      let '(resp, err) := ttlv_NextTTLV L (rw_Read conn request) in
      match err with
      | Some err => (([], "Unable to decode response TTLV", Some err), s)
      | None =>
          match ttlv_DecodeValue L resp with
          | inl err =>
              (* still return the raw response even if decoding fails *)
              ((resp, "", Some (fmt_Errorf_w "failed to decode response message: " err)), s)
          | inr respMsg =>
              match check_batch_items 0 (BatchItem respMsg) with
              | Some err => ((resp, "", Some err), s)
              | None =>
                  let hexResponse := Hex.EncodeToString resp in
                  ((resp, hexResponse, None), s)
              end
          end
      end
  end.

Definition printResponse (response : TTLV) (format : string) (s : State)
  : option error * State :=
  if format =? "xml" then
    match xml_MarshalIndent L response "" "  " with
    | inl err => (Some (fmt_Errorf_w "error printing XML: " err), s)
    | inr out => (None, fmt_Println (string_of_list_byte out) s)
    end
  else if format =? "hex" then
    (None, fmt_Println (Hex.EncodeToString response) s)
  else
    (Some (errorString ("unknown output format: " ++ format)), s).

(** [main], from the parsed flags on.  [log.SetFlags(0)] is accounted for
    in [log_Fatalf]. *)
Definition main (fl : Flags) (s : State) : Outcome * State :=
  if help fl || (serverAddr fl =? "") || (keyFile fl =? "") || (certFile fl =? "") then
    (Returned, printCustomHelp s)
  else
    match setupConnection (serverAddr fl) (keyFile fl) (certFile fl) (caFile fl) s with
    | (inl err, s) => log_Fatalf ("Failed to establish connection: " ++ Error err) s
    | (inr conn, s) =>
        defer conn_Close (fun s =>
          match readRequest (inputFile fl) (inputFormat fl) s with
          | ((_, Some err), s) => log_Fatalf ("Failed to read request: " ++ Error err) s
          | ((requestBytes, None), s) =>
              match sendRequest conn requestBytes s with
              | ((_, _, Some err), s) => log_Fatalf ("Failed to send request: " ++ Error err) s
              | ((responseTTLV, _, None), s) =>
                  match printResponse responseTTLV (outputFormat fl) s with
                  | (Some err, s) => log_Fatalf ("Failed to print response: " ++ Error err) s
                  | (None, s) => (Returned, s)
                  end
              end
          end) s
    end.

End Program.


(** ** A small library and world to run the program in

    A reader of single TTLV nodes and of the batch items of a response
    message, after the description of the encoding: a 3-byte tag, a
    1-byte type, a 4-byte big-endian length and a value padded to a
    multiple of 8 bytes.  The theorems below hold for every [Lib] and
    [Env]; these definitions are the concrete ones the examples run
    on. *)

Module Sample.

Definition be (l : list byte) : N :=
  fold_left (fun acc b => (acc * 256 + Byte.to_N b)%N) l 0%N.

Definition padded (n : nat) : nat := ((n + 7) / 8 * 8)%nat.

Definition full_len (data : list byte) : nat :=
  (8 + padded (N.to_nat (be (take 4 (drop 4 data)))))%nat.

Definition NextTTLV (r : Reader) : TTLV * option error :=
  let data := r_data r in
  if (length data <? 8)%nat then ([], Some (default io_EOF (r_err r)))
  else if (length data <? full_len data)%nat then
    (data, Some (default (errorString "unexpected EOF") (r_err r)))
  else (take (full_len data) data, None).

Record Node : Type := mkNode {
  n_tag : N;
  n_type : N;
  n_value : list byte
}.

Definition head_node (data : list byte) : Node :=
  mkNode (be (take 3 data)) (be (take 1 (drop 3 data)))
    (take (N.to_nat (be (take 4 (drop 4 data)))) (drop 8 data)).

(** The nodes laid end to end in [data]. *)
Fixpoint nodes (fuel : nat) (data : list byte) : option (list Node) :=
  match fuel with
  | O => None
  | S fuel' =>
      if (length data =? 0)%nat then Some []
      else if ((length data <? 8) || (length data <? full_len data))%nat then None
      else
        match nodes fuel' (drop (full_len data) data) with
        | Some rest => Some (head_node data :: rest)
        | None => None
        end
  end.

Definition tagResponseMessage : N := 4325499%N.
Definition tagBatchItem : N := 4325391%N.
Definition tagResultStatus : N := 4325503%N.
Definition tagResultMessage : N := 4325501%N.
Definition tagOperation : N := 4325468%N.
Definition tagResultReason : N := 4325502%N.

Definition field (tag : N) (fields : list Node) : option Node :=
  find (fun n => (n_tag n =? tag)%N) fields.

Definition number (n : option Node) : N :=
  match n with Some n => be (take 4 (n_value n)) | None => 0%N end.

Definition batch_item (n : Node) : error + ResponseBatchItem :=
  match nodes (S (length (n_value n))) (n_value n) with
  | None => inl (errorString "malformed batch item")
  | Some fields =>
      match field tagResultStatus fields with
      | None => inl (errorString "missing result status")
      | Some st =>
          inr (mkBatchItem (number (field tagOperation fields))
                 (be (take 4 (n_value st)))
                 (number (field tagResultReason fields))
                 (match field tagResultMessage fields with
                  | Some m => string_of_list_byte (n_value m)
                  | None => ""
                  end))
      end
  end.

Fixpoint batch_items (ns : list Node) : error + list ResponseBatchItem :=
  match ns with
  | [] => inr []
  | n :: rest =>
      if (n_tag n =? tagBatchItem)%N then
        match batch_item n, batch_items rest with
        | inl err, _ => inl err
        | _, inl err => inl err
        | inr item, inr items => inr (item :: items)
        end
      else batch_items rest
  end.

Definition DecodeValue (t : TTLV) : error + ResponseMessage :=
  let top := head_node t in
  if negb ((n_tag top =? tagResponseMessage)%N && (n_type top =? 1)%N) then
    inl (errorString "not a response message")
  else
    match nodes (S (length (n_value top))) (n_value top) with
    | None => inl (errorString "malformed response message")
    | Some children =>
        match batch_items children with
        | inl err => inl err
        | inr items => inr (mkResponse (mkHeader (Z.of_nat (length items))) items)
        end
    end.

Definition status_name (st : ResultStatus) : string :=
  match st with
  | 0%N => "Success"
  | 1%N => "OperationFailed"
  | 2%N => "OperationPending"
  | 3%N => "OperationUndone"
  | _ => pretty st
  end.

(** The one document the sample XML decoder knows, and its encoding. *)
Definition request_xml : string := "<RequestMessage></RequestMessage>".
Definition request_bytes : list byte := [x42; x00; x78; x01; x00; x00; x00; x00].

Definition decode_xml (r : string) : error + TTLV :=
  if r =? "" then inl io_EOF
  else if r =? request_xml then inr request_bytes
  else inl (errorString "XML syntax error").

Definition marshal_xml (t : TTLV) (prefix indent : string) : error + list byte :=
  if (length t <? 8)%nat then inl (errorString "ttlv: header truncated")
  else inr (list_byte_of_string
              (prefix ++ "<TTLV hex='" ++ Hex.EncodeToString t ++ "'/>")).

Definition lib : Lib :=
  mkLib NextTTLV DecodeValue status_name decode_xml marshal_xml
    (fun pool pem => match pem with [] => pool | _ => (pool ++ [pem])%list end)
    (fun s => dquote ++ s ++ dquote)
    ("  -server string" ++ newline).

Definition client_cert : Certificate := mkCertificate [[x30; x82]] [x30; x81].

(** A world with a key pair in [client.pem] and [client.key], a CA file
    [ca.pem], a request file [request.hex], the given standard input and
    a server at [localhost:5696] that answers every request with
    [reply]. *)
Definition env (stdin reply : Reader) : Env :=
  mkEnv
    (fun cert key =>
       if (cert =? "client.pem") && (key =? "client.key") then inr client_cert
       else inl (errorString ("open " ++ cert ++ ": no such file or directory")))
    (fun path =>
       if path =? "ca.pem" then inr [x2d; x2d]
       else inl (errorString ("open " ++ path ++ ": no such file or directory")))
    (fun network addr conf =>
       if addr =? "localhost:5696" then
         inr (mkReadWriter (fun _ => None) (fun _ => reply))
       else inl (errorString ("dial tcp " ++ addr ++ ": connection refused")))
    (fun path =>
       if path =? "request.hex" then
         inr (mkReader (list_byte_of_string ("4200780100000000" ++ newline)) None)
       else inl (errorString ("open " ++ path ++ ": no such file or directory")))
    stdin.

(** A response with one batch item whose result status is Success. *)
Definition response_ok : list byte :=
  [x42; x00; x7b; x01; x00; x00; x00; x18;
   x42; x00; x0f; x01; x00; x00; x00; x10;
   x42; x00; x7f; x05; x00; x00; x00; x04; x00; x00; x00; x00; x00; x00; x00; x00].

(** A response with a successful batch item followed by a failed one
    with the message [oops]. *)
Definition response_failed : list byte :=
  [x42; x00; x7b; x01; x00; x00; x00; x40;
   x42; x00; x0f; x01; x00; x00; x00; x10;
   x42; x00; x7f; x05; x00; x00; x00; x04; x00; x00; x00; x00; x00; x00; x00; x00;
   x42; x00; x0f; x01; x00; x00; x00; x20;
   x42; x00; x7f; x05; x00; x00; x00; x04; x00; x00; x00; x01; x00; x00; x00; x00;
   x42; x00; x7d; x07; x00; x00; x00; x04; x6f; x6f; x70; x73; x00; x00; x00; x00].

(** A response cut after two bytes of its value. *)
Definition response_truncated : list byte :=
  [x42; x00; x7b; x01; x00; x00; x00; x18; x42; x00].

(** A well-formed node that is not a response message. *)
Definition response_other : list byte :=
  [x42; x00; x78; x01; x00; x00; x00; x00].

(** What [response_ok] and [response_failed] decode to. *)
Definition message_ok : ResponseMessage :=
  mkResponse (mkHeader 1) [mkBatchItem 0 0%N 0 ""].

Definition message_failed : ResponseMessage :=
  mkResponse (mkHeader 2) [mkBatchItem 0 0%N 0 ""; mkBatchItem 0 1%N 0 "oops"].

(** A connection on which every write succeeds and the peer answers
    with [reply]. *)
Definition answering (reply : list byte) : ReadWriter :=
  mkReadWriter (fun _ => None) (fun _ => mkReader reply None).

Definition flags : Flags :=
  mkFlags "localhost:5696" "client.key" "client.pem" "" "" "hex" "hex" false.

Definition stdin_hex : Reader :=
  mkReader (list_byte_of_string ("4200780100000000" ++ newline)) None.

End Sample.

(** ** Vocabulary of the statements *)

(** An ASCII byte that is not white space. *)
Definition plain (c : ascii) : bool :=
  (N_of_ascii c <? 128)%N && negb (Strings.asciiSpace c).

Definition head_plain (l : list ascii) : bool :=
  match l with [] => true | c :: _ => plain c end.

(** A text that is empty, or begins and ends with a plain byte. *)
Definition clean (text : string) : bool :=
  head_plain (list_ascii_of_string text)
  && head_plain (rev (list_ascii_of_string text)).

(** A text made of ASCII white space only. *)
Definition all_space (text : string) : bool :=
  forallb Strings.asciiSpace (list_ascii_of_string text).

(** A text made of white space only, ASCII or not: a sequence of encoded
    runes for which [unicode.IsSpace] holds. *)
Definition white (text : string) : Prop :=
  exists runes,
    Forall (fun t => In t Strings.space_runes) runes
    /\ list_ascii_of_string text = concat runes.

(** A text whose first, or last, rune is white space. *)
Definition begins_with_space (text : string) : Prop :=
  exists t, In t Strings.space_runes
            /\ Strings.has_prefix t (list_ascii_of_string text) = true.

Definition ends_with_space (text : string) : Prop :=
  exists t, In t Strings.space_runes
            /\ Strings.has_prefix (rev t) (rev (list_ascii_of_string text)) = true.

(** The request is read from [reader]: the file named by [-in] when one
    is given, standard input otherwise. *)
Definition reads_from (E : Env) (inputFile : string) (reader : Reader) : Prop :=
  (inputFile = "" /\ os_Stdin E = reader)
  \/ (inputFile <> "" /\ os_Open E inputFile = inr reader).

(** A reader that delivers [text] and then ends. *)
Definition text_reader (text : string) : Reader :=
  mkReader (list_byte_of_string text) None.

(** A batch item whose result status is not Success. *)
Definition failed (item : ResponseBatchItem) : Prop :=
  ResultStatus_of item <> ResultStatusSuccess.

#[global] Instance failed_dec (item : ResponseBatchItem) : Decision (failed item).
Proof. unfold failed. apply _. Defined.

(** The error [sendRequest] builds for the batch item at index [i]. *)
Definition batch_error (L : Lib) (i : nat) (item : ResponseBatchItem) : error :=
  errorString
    ("KMIP operation in batch item " ++ pretty i ++ " failed: "
     ++ ResultStatus_String L (ResultStatus_of item) ++ " - " ++ ResultMessage item).

(** A configuration for TLS 1.2 or later with the client key pair of
    [certFile] and [keyFile], that skips the verification of the server
    when [caFile] is empty and otherwise verifies against the pool of the
    certificates in [caFile]. *)
Definition config_for (L : Lib) (E : Env) (keyFile certFile caFile : string)
  (conf : Config) : Prop :=
  MinVersion conf = VersionTLS12
  /\ (exists cer,
        tls_LoadX509KeyPair E certFile keyFile = inr cer
        /\ Certificates conf = [cer])
  /\ (caFile = "" -> InsecureSkipVerify conf = true /\ RootCAs conf = None)
  /\ (caFile <> "" ->
      InsecureSkipVerify conf = false
      /\ exists caCert,
           ioutil_ReadFile E caFile = inr caCert
           /\ RootCAs conf = Some (x509_AppendCertsFromPEM L NewCertPool caCert)).

(** The run [r] of [setupConnection] from [s] made one call of
    [tls.Dial], to [serverAddr] with [conf], and returned what that call
    returned: the connection, or its error under the text of
    [setupConnection]. *)
Definition dials_once (E : Env) (serverAddr : string) (conf : Config)
  (s : State) (r : (error + ReadWriter) * State) : Prop :=
  st_dials (snd r) = (st_dials s ++ [(serverAddr, conf)])%list
  /\ (forall conn,
        tls_Dial E "tcp" serverAddr conf = inr conn ->
        r = (inr conn, set_conn Connected (log_dial serverAddr conf s)))
  /\ (forall err,
        tls_Dial E "tcp" serverAddr conf = inl err ->
        r = (inl (fmt_Errorf_w "failed to connect to server: " err),
             log_dial serverAddr conf s)).

(** What [readRequest] makes of the trimmed text of the request. *)
Definition decode_text (L : Lib) (inputFormat requestStr : string)
  : list byte * option error :=
  if inputFormat =? "xml" then
    match xmlToHex L requestStr with
    | (_, Some err) =>
        ([], Some (fmt_Errorf_w "failed to convert XML request to hex: " err))
    | (hexRequest, None) => Hex.DecodeString hexRequest
    end
  else Hex.DecodeString requestStr.

(** Help is shown instead of a run: [-help], or a required flag left
    empty. *)
Definition shows_help (fl : Flags) : bool :=
  help fl || (serverAddr fl =? "") || (keyFile fl =? "") || (certFile fl =? "").

(** The line [log.Fatalf] writes for a message. *)
Definition fatal_line (msg : string) : string :=
  if ends_with_newline msg then msg else msg ++ newline.

(** [Fails L E fl s prefix err s']: run from [s] with flags [fl], the first
    of the four steps of [main] to return an error returns [err], in
    state [s']; [prefix] is the text [main] puts before the error. *)
Inductive Fails (L : Lib) (E : Env) (fl : Flags) (s : State)
  : string -> error -> State -> Prop :=
| fails_setup err s1 :
    setupConnection L E (serverAddr fl) (keyFile fl) (certFile fl) (caFile fl) s
    = (inl err, s1) ->
    Fails L E fl s "Failed to establish connection: " err s1
| fails_read conn s1 partial err s2 :
    setupConnection L E (serverAddr fl) (keyFile fl) (certFile fl) (caFile fl) s
    = (inr conn, s1) ->
    readRequest L E (inputFile fl) (inputFormat fl) s1 = ((partial, Some err), s2) ->
    Fails L E fl s "Failed to read request: " err s2
| fails_send conn s1 request s2 resp text err s3 :
    setupConnection L E (serverAddr fl) (keyFile fl) (certFile fl) (caFile fl) s
    = (inr conn, s1) ->
    readRequest L E (inputFile fl) (inputFormat fl) s1 = ((request, None), s2) ->
    sendRequest L conn request s2 = ((resp, text, Some err), s3) ->
    Fails L E fl s "Failed to send request: " err s3
| fails_print conn s1 request s2 resp text s3 err s4 :
    setupConnection L E (serverAddr fl) (keyFile fl) (certFile fl) (caFile fl) s
    = (inr conn, s1) ->
    readRequest L E (inputFile fl) (inputFormat fl) s1 = ((request, None), s2) ->
    sendRequest L conn request s2 = ((resp, text, None), s3) ->
    printResponse L resp (outputFormat fl) s3 = (Some err, s4) ->
    Fails L E fl s "Failed to print response: " err s4.

(** The line [readRequest] prints before it reads standard input. *)
Definition stdin_prompt : string :=
  "Enter KMIP request, then press Ctrl+D (or Ctrl+Z on Windows) to send:".

(** A hexadecimal digit, of either case. *)
Definition is_hex_digit (c : ascii) : bool :=
  (Hex.reverseHexTable c <=? 15)%N.

(** Hexadecimal text with the digits A to F in upper case. *)
Fixpoint EncodeUpper (src : list byte) : string :=
  match src with
  | [] => ""
  | v :: rest =>
      String (upperhex_at (N.shiftr (Byte.to_N v) 4))
        (String (upperhex_at (N.land (Byte.to_N v) 15)) (EncodeUpper rest))
  end.

(** The letters A to F in lower case, every other byte as it is. *)
Definition lower_digit (c : ascii) : ascii :=
  let n := N_of_ascii c in
  if (65 <=? n)%N && (n <=? 70)%N then ascii_of_N (n + 32) else c.

Fixpoint lower_text (text : string) : string :=
  match text with
  | "" => ""
  | String c rest => String (lower_digit c) (lower_text rest)
  end.

(** The flags with another output format. *)
Definition with_outputFormat (format : string) (fl : Flags) : Flags :=
  mkFlags (serverAddr fl) (keyFile fl) (certFile fl) (caFile fl)
    (inputFile fl) (inputFormat fl) format (help fl).

(** * Properties *)

(** ** The library functions on small inputs *)

Example hex_encode_ex :
  Hex.EncodeToString [x42; x00; x78; x01; xff] = "42007801ff".
Proof. reflexivity. Qed.

Example hex_decode_ex :
  Hex.DecodeString "42007801Ff" = ([x42; x00; x78; x01; xff], None).
Proof. reflexivity. Qed.

Example hex_decode_odd :
  Hex.DecodeString "420" = ([x42], Some hex_ErrLength).
Proof. reflexivity. Qed.

Example hex_decode_bad :
  Hex.DecodeString "42zz" = ([x42], Some (hex_InvalidByteError "z")).
Proof. reflexivity. Qed.

Example hex_bad_message :
  Error (hex_InvalidByteError "z") = "encoding/hex: invalid byte: U+007A 'z'".
Proof. reflexivity. Qed.

Example trim_ex :
  Strings.TrimSpace ("  42 00" ++ newline ++ " ") = "42 00".
Proof. reflexivity. Qed.

Example trim_unicode_ex :
  Strings.TrimSpace
    (string_of_list_ascii (map ascii_of_N [226; 128; 131; 52; 50; 194; 160; 13; 10]%N))
  = "42".
Proof. reflexivity. Qed.

Example sample_decode_ok :
  Sample.DecodeValue Sample.response_ok = inr Sample.message_ok.
Proof. reflexivity. Qed.

Example sample_decode_failed :
  Sample.DecodeValue Sample.response_failed = inr Sample.message_failed.
Proof. reflexivity. Qed.

(** ** [encoding/hex] *)

Section HexFacts.

Import Hex.

Lemma decode_encoded_byte (v : byte) (rest : string) :
  DecodeString
    (String (hextable_at (N.shiftr (Byte.to_N v) 4))
       (String (hextable_at (N.land (Byte.to_N v) 15)) rest))
  = (v :: fst (DecodeString rest), snd (DecodeString rest)).
Proof.
  destruct v; cbn; destruct (DecodeString rest); reflexivity.
Qed.

(** Decoding the hexadecimal text of a byte sequence gives the sequence
    back, without error. *)
Lemma DecodeString_EncodeToString (src : list byte) :
  DecodeString (EncodeToString src) = (src, None).
Proof.
  induction src as [|v rest IH]; [reflexivity|].
  change (EncodeToString (v :: rest))
    with (String (hextable_at (N.shiftr (Byte.to_N v) 4))
            (String (hextable_at (N.land (Byte.to_N v) 15)) (EncodeToString rest))).
  rewrite decode_encoded_byte, IH. reflexivity.
Qed.

End HexFacts.

(** ** [strings.TrimSpace] *)

Section TrimFront.

Import Strings.

Variable runes : list (list ascii).

Hypothesis find_rune : forall t l,
  In t runes -> find (fun t' => has_prefix t' (t ++ l)) runes = Some t.
Hypothesis rune_length : forall t, In t runes -> 0 < length t.
Hypothesis find_plain : forall c l,
  plain c = true -> find (fun t => has_prefix t (c :: l)) runes = None.
Hypothesis find_nil : find (fun t => has_prefix t []) runes = None.

(** A run of encoded runes in front of a text that starts with a plain
    byte, or is empty, is dropped whole. *)
Lemma trim_front_runes (ws : list (list ascii)) (rest : list ascii) :
  forall fuel,
    Forall (fun t => In t runes) ws -> length (concat ws) <= fuel ->
    head_plain rest = true ->
    trim_front runes fuel (concat ws ++ rest) = rest.
Proof.
  induction ws as [|t ws IH]; intros fuel Hws Hfuel Hrest.
  - destruct fuel as [|fuel]; [reflexivity|].
    destruct rest as [|c l]; cbn [concat app trim_front].
    + now rewrite find_nil.
    + now rewrite find_plain.
  - inversion Hws as [|? ? Ht Hws']; subst.
    pose proof (rune_length _ Ht) as Hlen.
    cbn [concat] in *. rewrite length_app in Hfuel.
    destruct fuel as [|fuel]; [lia|].
    cbn [trim_front]. rewrite <- app_assoc, (find_rune _ _ Ht).
    rewrite drop_app_length. apply IH; [assumption | lia | assumption].
Qed.

End TrimFront.

(** What [trim_front] does to any text. *)
Section TrimAny.

Import Strings.

Variable runes : list (list ascii).

Hypothesis rune_length : forall t, In t runes -> 0 < length t.

Lemma has_prefix_app (t l : list ascii) :
  has_prefix t l = true -> l = (t ++ drop (length t) l)%list.
Proof.
  revert l. induction t as [|a t IH]; intros [|b l] H; try reflexivity.
  - discriminate H.
  - cbn [has_prefix] in H. apply andb_prop in H as [Hab Htl].
    apply Ascii.eqb_eq in Hab as ->. cbn [length drop app]. f_equal. now apply IH.
Qed.

Lemma has_prefix_weaken (t y z : list ascii) :
  has_prefix t y = true -> has_prefix t (y ++ z) = true.
Proof.
  revert y. induction t as [|a t IH]; intros [|b y] H; try reflexivity.
  - discriminate H.
  - cbn [has_prefix app] in *. apply andb_prop in H as [-> Htl]. now apply IH.
Qed.

Lemma find_none_intro {A} (f : A -> bool) (l : list A) :
  (forall x, In x l -> f x = false) -> find f l = None.
Proof.
  induction l as [|x l IH]; intros H; [reflexivity|].
  cbn [find]. rewrite (H x) by now left. apply IH. intros y Hy. apply H. now right.
Qed.

(** The text is a run of runes followed by what [trim_front] returns. *)
Lemma trim_front_split (fuel : nat) :
  forall l, exists ws,
    Forall (fun t => In t runes) ws
    /\ l = (concat ws ++ trim_front runes fuel l)%list.
Proof.
  induction fuel as [|fuel IH]; intros l.
  - exists []. split; [constructor | reflexivity].
  - cbn [trim_front].
    destruct (find (fun t => has_prefix t l) runes) as [t|] eqn:Hfind.
    + apply find_some in Hfind as [Hin Hpre].
      destruct (IH (drop (length t) l)) as (ws & Hws & Heq).
      exists (t :: ws). split; [now constructor|].
      cbn [concat]. rewrite <- app_assoc, <- Heq. now apply has_prefix_app.
    + exists []. split; [constructor | reflexivity].
Qed.

(** With fuel for the whole text, no rune is left in front. *)
Lemma trim_front_done (fuel : nat) :
  forall l, length l <= fuel ->
    find (fun t => has_prefix t (trim_front runes fuel l)) runes = None.
Proof.
  induction fuel as [|fuel IH]; intros l Hlen.
  - destruct l; [|cbn in Hlen; lia]. cbn [trim_front].
    apply find_none_intro. intros t Ht. apply rune_length in Ht.
    destruct t; [cbn in Ht; lia | reflexivity].
  - cbn [trim_front].
    destruct (find (fun t => has_prefix t l) runes) as [t|] eqn:Hfind; [|assumption].
    apply find_some in Hfind as [Hin _]. apply rune_length in Hin.
    apply IH. rewrite length_drop. lia.
Qed.

Lemma trim_front_id (fuel : nat) (l : list ascii) :
  find (fun t => has_prefix t l) runes = None -> trim_front runes fuel l = l.
Proof. destruct fuel; [reflexivity|]. cbn [trim_front]. now intros ->. Qed.

End TrimAny.

Section TrimFacts.

Import Strings.

Lemma space_runes_rune t l :
  In t space_runes ->
  find (fun t' => has_prefix t' (t ++ l)) space_runes = Some t.
Proof.
  intros Hin. simpl in Hin.
  repeat (destruct Hin as [<-|Hin]; [reflexivity|]). destruct Hin.
Qed.

Lemma space_runes_length t : In t space_runes -> 0 < length t.
Proof.
  intros Hin. simpl in Hin.
  repeat (destruct Hin as [<-|Hin]; [cbn; lia|]). destruct Hin.
Qed.

Lemma space_runes_plain c l :
  plain c = true -> find (fun t => has_prefix t (c :: l)) space_runes = None.
Proof.
  destruct c as [[] [] [] [] [] [] [] []]; intros H;
    first [ reflexivity | (vm_compute in H; discriminate H) ].
Qed.

Lemma rev_runes_rune t l :
  In t (map (@rev ascii) space_runes) ->
  find (fun t' => has_prefix t' (t ++ l)) (map (@rev ascii) space_runes) = Some t.
Proof.
  intros Hin. simpl in Hin.
  repeat (destruct Hin as [<-|Hin]; [reflexivity|]). destruct Hin.
Qed.

Lemma rev_runes_length t : In t (map (@rev ascii) space_runes) -> 0 < length t.
Proof.
  intros Hin. simpl in Hin.
  repeat (destruct Hin as [<-|Hin]; [cbn; lia|]). destruct Hin.
Qed.

Lemma rev_runes_plain c l :
  plain c = true ->
  find (fun t => has_prefix t (c :: l)) (map (@rev ascii) space_runes) = None.
Proof.
  destruct c as [[] [] [] [] [] [] [] []]; intros H;
    first [ reflexivity | (vm_compute in H; discriminate H) ].
Qed.

Lemma rev_concat (ws : list (list ascii)) :
  rev (concat ws) = concat (map (@rev ascii) (rev ws)).
Proof.
  induction ws as [|t ws IH]; [reflexivity|].
  cbn [concat rev]. rewrite rev_app_distr, IH, map_app, concat_app.
  cbn [map concat]. now rewrite app_nil_r.
Qed.

Lemma trimLeft_runes (ws : list (list ascii)) (rest : list ascii) :
  Forall (fun t => In t space_runes) ws -> head_plain rest = true ->
  trimLeft (concat ws ++ rest) = rest.
Proof.
  intros Hws Hrest. unfold trimLeft.
  apply trim_front_runes;
    auto using space_runes_rune, space_runes_length, space_runes_plain.
  rewrite length_app. lia.
Qed.

Lemma trimRight_runes (rest : list ascii) (ws : list (list ascii)) :
  Forall (fun t => In t space_runes) ws -> head_plain (rev rest) = true ->
  trimRight (rest ++ concat ws) = rest.
Proof.
  intros Hws Hrest. unfold trimRight.
  rewrite rev_app_distr, rev_concat, trim_front_runes;
    auto using rev_runes_rune, rev_runes_length, rev_runes_plain, rev_involutive.
  - apply List.Forall_forall. intros t Ht.
    apply in_map_iff in Ht as (t0 & <- & Ht0). apply in_map.
    rewrite List.Forall_forall in Hws. apply Hws. now apply in_rev.
  - rewrite <- rev_concat, length_rev, length_app. lia.
Qed.

Lemma list_ascii_of_string_app (a b : string) :
  list_ascii_of_string (a ++ b)
  = (list_ascii_of_string a ++ list_ascii_of_string b)%list.
Proof. induction a as [|c a IH]; simpl; [reflexivity | now f_equal]. Qed.

(** White space around a clean text is removed, and nothing else. *)
Lemma TrimSpace_strip (lead core trail : string) :
  white lead -> white trail -> clean core = true ->
  TrimSpace (lead ++ core ++ trail) = core.
Proof.
  unfold clean, TrimSpace. intros (wl & Hwl & Hl) (wt & Hwt & Ht) Hc.
  apply andb_prop in Hc as [Hfront Hback].
  rewrite !list_ascii_of_string_app, Hl, Ht.
  rewrite <- (string_of_list_ascii_of_string core) at 2. f_equal.
  destruct (list_ascii_of_string core) as [|c l] eqn:Hcore.
  - cbn [app]. rewrite <- concat_app, <- (app_nil_r (concat _)), trimLeft_runes; auto.
    now apply Forall_app.
  - rewrite trimLeft_runes, trimRight_runes; auto.
Qed.

(** ASCII white space is white space. *)
Lemma all_space_white (text : string) : all_space text = true -> white text.
Proof.
  unfold all_space, white. induction (list_ascii_of_string text) as [|c l IH].
  - exists []. split; [constructor | reflexivity].
  - cbn [forallb]. intros [Hc Hl]%andb_prop.
    destruct (IH Hl) as (ws & Hws & ->).
    exists ([c] :: ws). split; [|reflexivity]. constructor; [|assumption].
    clear -Hc. destruct c as [[] [] [] [] [] [] [] []];
      first [ (vm_compute in Hc; discriminate Hc) | (simpl; tauto) ].
Qed.

Lemma trimLeft_split (l : list ascii) :
  exists ws, Forall (fun t => In t space_runes) ws
             /\ l = (concat ws ++ trimLeft l)%list.
Proof. apply trim_front_split. Qed.

Lemma trimRight_split (l : list ascii) :
  exists ws, Forall (fun t => In t space_runes) ws
             /\ l = (trimRight l ++ concat ws)%list.
Proof.
  unfold trimRight.
  destruct (trim_front_split (map (@rev ascii) space_runes) (length l) (rev l))
    as (ws & Hws & Heq).
  exists (map (@rev ascii) (rev ws)). split.
  - apply List.Forall_forall. intros t Ht.
    apply in_map_iff in Ht as (t0 & <- & Ht0). apply in_rev in Ht0.
    rewrite List.Forall_forall in Hws. apply Hws, in_map_iff in Ht0 as (t1 & <- & Ht1).
    now rewrite rev_involutive.
  - rewrite <- rev_concat, <- rev_app_distr, <- Heq. now rewrite rev_involutive.
Qed.

Lemma trimLeft_done (l : list ascii) :
  find (fun t => has_prefix t (trimLeft l)) space_runes = None.
Proof. apply trim_front_done; [apply space_runes_length | reflexivity]. Qed.

Lemma trimRight_done (l : list ascii) :
  find (fun t => has_prefix t (rev (trimRight l))) (map (@rev ascii) space_runes)
  = None.
Proof.
  unfold trimRight. rewrite rev_involutive.
  apply trim_front_done; [apply rev_runes_length | now rewrite length_rev].
Qed.

(** Trimming the end of a text leaves no rune in front if there was
    none. *)
Lemma trimRight_front (l : list ascii) :
  find (fun t => has_prefix t l) space_runes = None ->
  find (fun t => has_prefix t (trimRight l)) space_runes = None.
Proof.
  intros Hl. apply find_none_intro. intros t Ht.
  destruct (has_prefix t (trimRight l)) eqn:Hpre; [|reflexivity].
  destruct (trimRight_split l) as (ws & _ & Heq).
  apply (has_prefix_weaken _ _ (concat ws)) in Hpre. rewrite <- Heq in Hpre.
  now rewrite (find_none _ _ Hl t Ht) in Hpre.
Qed.

Lemma trimLeft_id (l : list ascii) :
  find (fun t => has_prefix t l) space_runes = None -> trimLeft l = l.
Proof. apply trim_front_id. Qed.

Lemma trimRight_id (l : list ascii) :
  find (fun t => has_prefix t (rev l)) (map (@rev ascii) space_runes) = None ->
  trimRight l = l.
Proof.
  intros H. unfold trimRight. rewrite trim_front_id by assumption.
  apply rev_involutive.
Qed.

(** Trimming twice is trimming once. *)
Lemma TrimSpace_idempotent (text : string) :
  TrimSpace (TrimSpace text) = TrimSpace text.
Proof.
  unfold TrimSpace. f_equal. rewrite list_ascii_of_string_of_list_ascii.
  rewrite trimLeft_id by apply trimRight_front, trimLeft_done.
  apply trimRight_id, trimRight_done.
Qed.

(** What is left has white space neither in front nor at the end. *)
Lemma TrimSpace_done (text : string) :
  ~ begins_with_space (TrimSpace text) /\ ~ ends_with_space (TrimSpace text).
Proof.
  unfold begins_with_space, ends_with_space, TrimSpace.
  rewrite list_ascii_of_string_of_list_ascii. split; intros (t & Ht & Hpre).
  - pose proof (trimRight_front _ (trimLeft_done (list_ascii_of_string text))) as H.
    now rewrite (find_none _ _ H t Ht) in Hpre.
  - pose proof (trimRight_done (trimLeft (list_ascii_of_string text))) as H.
    now rewrite (find_none _ _ H (rev t) (in_map _ _ _ Ht)) in Hpre.
Qed.

Lemma white_of_runes (ws : list (list ascii)) :
  Forall (fun t => In t space_runes) ws -> white (string_of_list_ascii (concat ws)).
Proof.
  intros Hws. exists ws. split; [assumption|].
  apply list_ascii_of_string_of_list_ascii.
Qed.

Lemma string_of_list_ascii_app (a b : list ascii) :
  string_of_list_ascii (a ++ b) = string_of_list_ascii a ++ string_of_list_ascii b.
Proof. induction a as [|c a IH]; [reflexivity|]. cbn [app string_of_list_ascii]. now rewrite IH. Qed.

(** Only white space is taken away, from the two ends. *)
Lemma TrimSpace_split (text : string) :
  exists lead trail,
    white lead /\ white trail /\ text = lead ++ TrimSpace text ++ trail.
Proof.
  destruct (trimLeft_split (list_ascii_of_string text)) as (wl & Hwl & Hl).
  destruct (trimRight_split (trimLeft (list_ascii_of_string text))) as (wt & Hwt & Ht).
  exists (string_of_list_ascii (concat wl)), (string_of_list_ascii (concat wt)).
  split; [now apply white_of_runes|]. split; [now apply white_of_runes|].
  unfold TrimSpace. rewrite <- !string_of_list_ascii_app, <- Ht, <- Hl.
  symmetry. apply string_of_list_ascii_of_string.
Qed.

Lemma append_cons (c : ascii) (a b : string) :
  String c a ++ b = String c (a ++ b).
Proof. reflexivity. Qed.

Lemma append_empty_r (text : string) : text ++ "" = text.
Proof.
  induction text as [|c text IH]; [reflexivity|].
  now rewrite append_cons, IH.
Qed.

Lemma TrimSpace_clean (core : string) :
  clean core = true -> TrimSpace core = core.
Proof.
  intros Hc.
  assert (Hw : white "") by (apply all_space_white; reflexivity).
  pose proof (TrimSpace_strip "" core "" Hw Hw Hc) as H.
  change ("" ++ core ++ "") with (core ++ "") in H.
  now rewrite append_empty_r in H.
Qed.

Lemma hex_digits_plain (v : byte) :
  plain (Hex.hextable_at (N.shiftr (Byte.to_N v) 4)) = true
  /\ plain (Hex.hextable_at (N.land (Byte.to_N v) 15)) = true.
Proof. destruct v; split; reflexivity. Qed.

End TrimFacts.

Section HexText.

Import Hex.

Lemma EncodeToString_plain (src : list byte) :
  Forall (fun c => plain c = true) (list_ascii_of_string (EncodeToString src)).
Proof.
  induction src as [|v rest IH]; simpl; [constructor|].
  destruct (hex_digits_plain v) as [Hhi Hlo].
  repeat constructor; assumption.
Qed.

Lemma Forall_head_plain (l : list ascii) :
  Forall (fun c => plain c = true) l -> head_plain l = true.
Proof. destruct 1; [reflexivity | assumption]. Qed.

(** Hexadecimal text holds no white space. *)
Lemma EncodeToString_clean (src : list byte) :
  clean (EncodeToString src) = true.
Proof.
  unfold clean. apply andb_true_intro. split; apply Forall_head_plain.
  - apply EncodeToString_plain.
  - apply Forall_rev, EncodeToString_plain.
Qed.

End HexText.

(** ** The status check of [sendRequest] *)

Section BatchStatus.

Context (L : Lib).

(** The loop returns the error of the first failing item, if any. *)
Lemma check_batch_items_find (items : list ResponseBatchItem) :
  forall i,
    check_batch_items L i items
    = match list_find failed items with
      | Some (k, item) => Some (batch_error L (i + k) item)
      | None => None
      end.
Proof.
  induction items as [|item rest IH]; intros i; [reflexivity|].
  cbn [check_batch_items list_find]. unfold ResultStatusSuccess in *.
  destruct (decide (failed item)) as [Hf|Hs].
  - unfold failed, ResultStatusSuccess in Hf.
    apply N.eqb_neq in Hf. rewrite Hf. cbn. now rewrite Nat.add_0_r.
  - unfold failed, ResultStatusSuccess in Hs.
    apply dec_stable, N.eqb_eq in Hs. rewrite Hs. cbn [negb].
    rewrite IH. destruct (list_find failed rest) as [[k found]|]; cbn; [|reflexivity].
    do 2 f_equal. lia.
Qed.

(** C1. When the response message decodes, [sendRequest] returns no
    error if every batch item has result status Success; if some item
    has another status, it returns the error that names the index, the
    status and the result message of the first such item.  In both cases
    the raw TTLV node is returned. *)
Theorem sendRequest_batch_status (conn : ReadWriter) (request : list byte)
  (s : State) (resp : TTLV) (respMsg : ResponseMessage) :
  rw_Write conn request = None ->
  ttlv_NextTTLV L (rw_Read conn request) = (resp, None) ->
  ttlv_DecodeValue L resp = inr respMsg ->
  (Forall (fun item => ResultStatus_of item = ResultStatusSuccess) (BatchItem respMsg) ->
   fst (sendRequest L conn request s) = (resp, Hex.EncodeToString resp, None))
  /\ (Exists failed (BatchItem respMsg) ->
      exists i item,
        BatchItem respMsg !! i = Some item
        /\ failed item
        /\ (forall j other, BatchItem respMsg !! j = Some other -> j < i ->
            ResultStatus_of other = ResultStatusSuccess)
        /\ fst (sendRequest L conn request s)
           = (resp, "", Some (batch_error L i item))).
Proof.
  intros Hw Hn Hd. unfold sendRequest. rewrite Hw, Hn, Hd, check_batch_items_find.
  split.
  - intros Hall.
    destruct (list_find failed (BatchItem respMsg)) as [[k item]|] eqn:Hfind;
      [|reflexivity].
    apply list_find_Some in Hfind as (Hk & Hf & _).
    rewrite Forall_lookup in Hall. now specialize (Hall _ _ Hk).
  - intros Hex.
    destruct (list_find failed (BatchItem respMsg)) as [[k item]|] eqn:Hfind.
    + apply list_find_Some in Hfind as (Hk & Hf & Hmin).
      exists k, item. repeat split; try assumption.
      intros j other Hj Hlt. specialize (Hmin j other Hj Hlt).
      now apply dec_stable in Hmin.
    + apply list_find_None in Hfind. apply Exists_exists in Hex as (item & Hin & Hf).
      rewrite Forall_forall in Hfind. now specialize (Hfind item Hin).
Qed.

End BatchStatus.

(** ** [setupConnection] *)

Section Setup.

Context (L : Lib) (E : Env).

Lemma dials_once_intro (serverAddr : string) (conf : Config) (s : State) :
  dials_once E serverAddr conf s
    (let s' := log_dial serverAddr conf s in
     match tls_Dial E "tcp" serverAddr conf with
     | inl err => (inl (fmt_Errorf_w "failed to connect to server: " err), s')
     | inr conn => (inr conn, set_conn Connected s')
     end).
Proof.
  unfold dials_once. cbv zeta.
  destruct (tls_Dial E "tcp" serverAddr conf) as [err|conn]; cbn;
    repeat split; intros ? [= <-]; reflexivity.
Qed.

(** C2. [setupConnection] builds the configuration and dials with it.
    When the client key pair loads and the CA path is empty, it makes one
    call of [tls.Dial] with minimum version TLS 1.2, the key pair, no
    root pool and the verification of the server certificate skipped.
    When the CA path is not empty and the file reads, it makes one call
    with minimum version TLS 1.2, the key pair, the pool built from the
    file and the verification on.  In both cases it returns what the
    dial returns.  A key pair that cannot be loaded, or a CA file that
    cannot be read, makes it fail before any dial.  No other dial is
    made: every call of [tls.Dial] carries such a configuration, and a
    connection is returned only from such a dial. *)
Theorem setupConnection_config (serverAddr keyFile certFile caFile : string)
  (s : State) :
  let r := setupConnection L E serverAddr keyFile certFile caFile s in
  (exists dialed,
      st_dials (snd r) = (st_dials s ++ dialed)%list
      /\ Forall (fun d => fst d = serverAddr
                          /\ config_for L E keyFile certFile caFile (snd d)) dialed
      /\ (forall conn, fst r = inr conn ->
          exists conf, dialed = [(serverAddr, conf)]
                       /\ tls_Dial E "tcp" serverAddr conf = inr conn))
  /\ (forall err, tls_LoadX509KeyPair E certFile keyFile = inl err ->
      r = (inl (fmt_Errorf_w "failed to load client key pair: " err), s))
  /\ (forall cer,
        tls_LoadX509KeyPair E certFile keyFile = inr cer ->
        (caFile = "" ->
         dials_once E serverAddr (mkConfig [cer] VersionTLS12 None true) s r)
        /\ (caFile <> "" ->
            forall caCert,
              ioutil_ReadFile E caFile = inr caCert ->
              dials_once E serverAddr
                (mkConfig [cer] VersionTLS12
                   (Some (x509_AppendCertsFromPEM L NewCertPool caCert)) false)
                s r)
        /\ (caFile <> "" ->
            forall err,
              ioutil_ReadFile E caFile = inl err ->
              r = (inl (fmt_Errorf_w "failed to read CA certificate: " err), s))).
Proof.
  cbv zeta. unfold setupConnection.
  destruct (tls_LoadX509KeyPair E certFile keyFile) as [err|cer] eqn:Hpair.
  - split; [|split; [intros ? [= <-]; reflexivity | discriminate]].
    exists []. cbn. rewrite app_nil_r. repeat split; [constructor | discriminate].
  - split; [|split; [discriminate|]].
    + destruct (String.eqb_spec caFile "") as [->|Hca]; cbn [negb].
      * eexists [(serverAddr, _)]. split; [|split].
        -- destruct (tls_Dial E "tcp" serverAddr _); reflexivity.
        -- constructor; [|constructor]. cbn. split; [reflexivity|].
           split; [reflexivity|]. split; [eauto|].
           split; [intros _; split; reflexivity | intros H; now destruct H].
        -- intros conn Hconn. eexists. split; [reflexivity|].
           destruct (tls_Dial E "tcp" serverAddr _); cbn in Hconn; congruence.
      * destruct (ioutil_ReadFile E caFile) as [err|caCert] eqn:Hread.
        -- exists []. cbn. rewrite app_nil_r.
           repeat split; [constructor | discriminate].
        -- eexists [(serverAddr, _)]. split; [|split].
           ++ destruct (tls_Dial E "tcp" serverAddr _); reflexivity.
           ++ constructor; [|constructor]. cbn. split; [reflexivity|].
              split; [reflexivity|]. split; [eauto|].
              split; [intros ->; now destruct Hca
                     | intros _; split; [reflexivity | eauto]].
           ++ intros conn Hconn. eexists. split; [reflexivity|].
              destruct (tls_Dial E "tcp" serverAddr _); cbn in Hconn; congruence.
    + intros cer' [= <-]. split; [|split].
      * intros ->. cbn [String.eqb negb]. apply dials_once_intro.
      * intros Hca caCert Hread. apply String.eqb_neq in Hca.
        rewrite Hca, Hread. cbn [negb]. apply dials_once_intro.
      * intros Hca err Hread. apply String.eqb_neq in Hca.
        rewrite Hca, Hread. reflexivity.
Qed.

End Setup.

(** ** [readRequest] and [xmlToHex] *)

Section Reading.

Context (L : Lib).

(** The bytes and error [readRequest] returns are those of decoding the
    trimmed text, whether it comes from a file or from standard input. *)
Lemma readRequest_result (E : Env) (inputFile inputFormat : string) (s : State)
  (data : list byte) :
  reads_from E inputFile (mkReader data None) ->
  fst (readRequest L E inputFile inputFormat s)
  = decode_text L inputFormat (Strings.TrimSpace (string_of_list_byte data)).
Proof.
  unfold readRequest, decode_text.
  intros [[-> Hin] | [Hfile Hopen]].
  - cbn [String.eqb negb]. rewrite Hin. cbn.
    destruct (inputFormat =? "xml"); [|reflexivity].
    destruct (xmlToHex L _) as [hexRequest [err|]]; reflexivity.
  - apply String.eqb_neq in Hfile. rewrite Hfile, Hopen. cbn.
    destruct (inputFormat =? "xml"); [|reflexivity].
    destruct (xmlToHex L _) as [hexRequest [err|]]; reflexivity.
Qed.

Lemma readRequest_text (E : Env) (inputFile inputFormat : string) (s : State)
  (text : string) :
  reads_from E inputFile (text_reader text) ->
  fst (readRequest L E inputFile inputFormat s)
  = decode_text L inputFormat (Strings.TrimSpace text).
Proof.
  intros Hfrom. unfold text_reader in Hfrom.
  rewrite (readRequest_result _ _ _ _ _ Hfrom).
  now rewrite string_of_list_byte_of_string.
Qed.

(** C6. The hexadecimal text of [B] read as [hex], and an XML document
    that the decoder turns into [B] read as [xml], give the same request
    bytes [B]; the hex encoding followed by the hex decoding that the XML
    path applies is the identity. *)
Theorem readRequest_hex_xml_agree (E E' : Env) (hexFile xmlFile : string)
  (s s' : State) (B : list byte) (doc : string) :
  reads_from E hexFile (text_reader (Hex.EncodeToString B)) ->
  reads_from E' xmlFile (text_reader doc) ->
  xml_Decode L (Strings.TrimSpace doc) = inr B ->
  fst (readRequest L E hexFile "hex" s) = (B, None)
  /\ fst (readRequest L E' xmlFile "xml" s') = (B, None)
  /\ Hex.DecodeString (Hex.EncodeToString B) = (B, None).
Proof.
  intros Hhex Hxml Hdoc.
  rewrite (readRequest_text _ _ _ _ _ Hhex), (readRequest_text _ _ _ _ _ Hxml).
  unfold decode_text, xmlToHex. cbn [String.eqb Ascii.eqb Bool.eqb andb].
  rewrite Hdoc, TrimSpace_clean by apply EncodeToString_clean.
  rewrite DecodeString_EncodeToString. auto.
Qed.

(** C8. An input format other than [xml] is read as hexadecimal text,
    whatever its spelling, while [printResponse] returns an error for an
    output format that is neither [xml] nor [hex]. *)
Theorem readRequest_unknown_format_is_hex (E : Env)
  (inputFile format : string) (s : State) (response : TTLV) :
  format <> "xml" ->
  readRequest L E inputFile format s = readRequest L E inputFile "hex" s
  /\ (forall text, reads_from E inputFile (text_reader text) ->
      fst (readRequest L E inputFile format s)
      = Hex.DecodeString (Strings.TrimSpace text))
  /\ (format <> "hex" ->
      printResponse L response format s
      = (Some (errorString ("unknown output format: " ++ format)), s)).
Proof.
  intros Hxml. apply String.eqb_neq in Hxml. split; [|split].
  - unfold readRequest. rewrite Hxml. reflexivity.
  - intros text Hfrom. rewrite (readRequest_text _ _ _ _ _ Hfrom).
    unfold decode_text. now rewrite Hxml.
  - intros Hhex. apply String.eqb_neq in Hhex.
    unfold printResponse. now rewrite Hxml, Hhex.
Qed.

(** C9. [readRequest] decodes the trimmed text, for a file as for
    standard input and for either format: the result is the one for the
    text without its leading and trailing white space, which is all that
    [TrimSpace] removes and of which it leaves none.  White space around
    a text that begins and ends with a plain byte is removed exactly, so
    hexadecimal text followed by a newline is decoded without error. *)
Theorem readRequest_trims (E E' : Env) (inputFile format : string)
  (s s' : State) :
  (forall text,
      reads_from E inputFile (text_reader text) ->
      reads_from E' inputFile (text_reader (Strings.TrimSpace text)) ->
      fst (readRequest L E inputFile format s)
      = fst (readRequest L E' inputFile format s'))
  /\ (forall text,
        (exists lead trail,
            white lead /\ white trail
            /\ text = lead ++ Strings.TrimSpace text ++ trail)
        /\ ~ begins_with_space (Strings.TrimSpace text)
        /\ ~ ends_with_space (Strings.TrimSpace text))
  /\ (forall lead core trail,
        white lead -> white trail -> clean core = true ->
        reads_from E inputFile (text_reader (lead ++ core ++ trail)) ->
        reads_from E' inputFile (text_reader core) ->
        fst (readRequest L E inputFile format s)
        = fst (readRequest L E' inputFile format s'))
  /\ (forall B,
        format <> "xml" ->
        reads_from E inputFile (text_reader (Hex.EncodeToString B ++ newline)) ->
        fst (readRequest L E inputFile format s) = (B, None)).
Proof.
  split; [|split; [|split]].
  - intros text Hfrom Hfrom'.
    rewrite (readRequest_text _ _ _ _ _ Hfrom), (readRequest_text _ _ _ _ _ Hfrom').
    now rewrite TrimSpace_idempotent.
  - intros text. split; [apply TrimSpace_split | apply TrimSpace_done].
  - intros lead core trail Hlead Htrail Hcore Hfrom Hfrom'.
    rewrite (readRequest_text _ _ _ _ _ Hfrom), (readRequest_text _ _ _ _ _ Hfrom').
    now rewrite TrimSpace_strip, TrimSpace_clean.
  - intros B Hxml Hfrom. apply String.eqb_neq in Hxml.
    rewrite (readRequest_text _ _ _ _ _ Hfrom). unfold decode_text. rewrite Hxml.
    change (Hex.EncodeToString B ++ newline)
      with ("" ++ Hex.EncodeToString B ++ newline).
    rewrite TrimSpace_strip
      by (apply EncodeToString_clean || (apply all_space_white; reflexivity)).
    apply DecodeString_EncodeToString.
Qed.

(** C10. When the XML decoder reports end of file on the empty text,
    [xmlToHex] returns the empty string and no error, and [readRequest]
    in format [xml] on an input that is empty once trimmed returns an
    empty request and no error. *)
Theorem readRequest_empty_xml (E : Env) (inputFile : string) (s : State)
  (text : string) :
  xml_Decode L "" = inl io_EOF ->
  Strings.TrimSpace text = "" ->
  reads_from E inputFile (text_reader text) ->
  xmlToHex L "" = ("", None)
  /\ fst (readRequest L E inputFile "xml" s) = ([], None).
Proof.
  intros Heof Hempty Hfrom.
  assert (Hx : xmlToHex L "" = ("", None)) by (unfold xmlToHex; now rewrite Heof).
  split; [exact Hx|].
  rewrite (readRequest_text _ _ _ _ _ Hfrom), Hempty.
  unfold decode_text. cbn [String.eqb Ascii.eqb Bool.eqb andb]. now rewrite Hx.
Qed.


End Reading.

(** ** [sendRequest] on a response that cannot be read or decoded *)

Section RawResponse.

Context (L : Lib).

(** C3, amended. When one complete TTLV node was read, [sendRequest]
    returns that raw node, also when the node does not decode as a
    response message, and then alongside the error.  When reading the
    node itself fails, [sendRequest] returns a nil TTLV value, the text
    [Unable to decode response TTLV] and the error of the reader: the
    bytes read so far are not returned. *)
Theorem sendRequest_raw_response (conn : ReadWriter) (request : list byte)
  (s : State) :
  rw_Write conn request = None ->
  (forall resp,
      ttlv_NextTTLV L (rw_Read conn request) = (resp, None) ->
      fst (fst (fst (sendRequest L conn request s))) = resp
      /\ (forall err,
             ttlv_DecodeValue L resp = inl err ->
             fst (sendRequest L conn request s)
             = (resp, "", Some (fmt_Errorf_w "failed to decode response message: " err))))
  /\ (forall partial err,
        ttlv_NextTTLV L (rw_Read conn request) = (partial, Some err) ->
        fst (sendRequest L conn request s)
        = ([], "Unable to decode response TTLV", Some err)).
Proof.
  intros Hw. unfold sendRequest. rewrite Hw. split.
  - intros resp Hn. rewrite Hn. split.
    + destruct (ttlv_DecodeValue L resp) as [err|respMsg]; [reflexivity|].
      destruct (check_batch_items L 0 (BatchItem respMsg)); reflexivity.
    + intros err Hd. now rewrite Hd.
  - intros partial err Hn. now rewrite Hn.
Qed.

End RawResponse.

(** C3 as stated fails: the stream ends two bytes into the value of the
    node, the decoder hands back the ten bytes it read together with its
    error, and [sendRequest] returns no bytes. *)
Lemma sendRequest_drops_bytes_read :
  rw_Write (Sample.answering Sample.response_truncated) Sample.request_bytes = None
  /\ ttlv_NextTTLV Sample.lib
       (rw_Read (Sample.answering Sample.response_truncated) Sample.request_bytes)
     = (Sample.response_truncated, Some (errorString "unexpected EOF"))
  /\ fst (sendRequest Sample.lib (Sample.answering Sample.response_truncated)
            Sample.request_bytes initial)
     = ([], "Unable to decode response TTLV", Some (errorString "unexpected EOF"))
  /\ fst (fst (fst (sendRequest Sample.lib (Sample.answering Sample.response_truncated)
                      Sample.request_bytes initial)))
     <> Sample.response_truncated.
Proof. repeat split; try reflexivity. vm_compute. discriminate. Qed.

(** ** How [main] ends *)

Section Main.

Context (L : Lib) (E : Env).

Lemma setupConnection_state (serverAddr keyFile certFile caFile : string)
  (s : State) r s1 :
  setupConnection L E serverAddr keyFile certFile caFile s = (r, s1) ->
  st_stderr s1 = st_stderr s
  /\ (forall conn, r = inr conn -> st_conn s1 = Connected).
Proof.
  unfold setupConnection. intros H.
  repeat case_match; simplify_eq/=; split; try reflexivity; try discriminate;
    intros; reflexivity.
Qed.

Lemma readRequest_state (inputFile inputFormat : string) (s : State) r s1 :
  readRequest L E inputFile inputFormat s = (r, s1) ->
  st_stderr s1 = st_stderr s /\ st_conn s1 = st_conn s.
Proof.
  unfold readRequest. intros H.
  repeat case_match; simplify_eq/=; split; reflexivity.
Qed.

Lemma sendRequest_state (conn : ReadWriter) (request : list byte) (s : State) r s1 :
  sendRequest L conn request s = (r, s1) ->
  st_stderr s1 = st_stderr s /\ st_conn s1 = st_conn s.
Proof.
  unfold sendRequest. intros H.
  repeat case_match; simplify_eq/=; split; reflexivity.
Qed.

Lemma printResponse_state (response : TTLV) (format : string) (s : State) r s1 :
  printResponse L response format s = (r, s1) ->
  st_stderr s1 = st_stderr s /\ st_conn s1 = st_conn s.
Proof.
  unfold printResponse. intros H.
  repeat case_match; simplify_eq/=; split; reflexivity.
Qed.

(** The steps of [main] write nothing to standard error. *)
Lemma Fails_stderr (fl : Flags) (s : State) prefix err s' :
  Fails L E fl s prefix err s' -> st_stderr s' = st_stderr s.
Proof.
  destruct 1;
    repeat match goal with
      | H : setupConnection _ _ _ _ _ _ _ = _ |- _ =>
          apply setupConnection_state in H as [? _]
      | H : readRequest _ _ _ _ _ = _ |- _ => apply readRequest_state in H as [? _]
      | H : sendRequest _ _ _ _ = _ |- _ => apply sendRequest_state in H as [? _]
      | H : printResponse _ _ _ _ = _ |- _ => apply printResponse_state in H as [? _]
      end; congruence.
Qed.

(** A failing step makes [main] call [log.Fatalf] in the state the step
    left. *)
Lemma main_Fails (fl : Flags) (s : State) prefix err s' :
  shows_help fl = false ->
  Fails L E fl s prefix err s' ->
  main L E fl s = log_Fatalf (prefix ++ Error err) s'.
Proof.
  unfold shows_help, main. intros -> Hf.
  destruct Hf as [err s1 H1 | conn s1 partial err s2 H1 H2
                 | conn s1 request s2 resp text err s3 H1 H2 H3
                 | conn s1 request s2 resp text s3 err s4 H1 H2 H3 H4];
    rewrite H1; [reflexivity | unfold defer ..].
  - now rewrite H2.
  - now rewrite H2, H3.
  - now rewrite H2, H3, H4.
Qed.

(** C4, amended. With [-help], or with the server address, the key file
    or the certificate file missing, [main] prints the help and returns:
    the exit status is 0.  Otherwise, when setting up the connection,
    reading the request, the exchange or the printing fails, [main]
    writes [Failed to ...] followed by the error to standard error and
    the process ends with exit status 1; when none of them fails [main]
    returns and standard error is left as it was. *)
Theorem main_exit_status (fl : Flags) (s : State) :
  (shows_help fl = true ->
   main L E fl s = (Returned, printCustomHelp L s)
   /\ exit_status (fst (main L E fl s)) = 0%Z)
  /\ (shows_help fl = false ->
      (forall prefix err s',
          Fails L E fl s prefix err s' ->
          exit_status (fst (main L E fl s)) = 1%Z
          /\ st_stderr (snd (main L E fl s))
             = st_stderr s ++ fatal_line (prefix ++ Error err))
      /\ ((forall prefix err s', ~ Fails L E fl s prefix err s') ->
          fst (main L E fl s) = Returned
          /\ st_stderr (snd (main L E fl s)) = st_stderr s)).
Proof.
  split.
  - unfold shows_help, main. intros ->. split; reflexivity.
  - intros Hh. split.
    + intros prefix err s' Hf. rewrite (main_Fails _ _ _ _ _ Hh Hf).
      apply Fails_stderr in Hf. unfold log_Fatalf, fatal_line. cbn. now rewrite Hf.
    + intros Hno. unfold shows_help in Hh. unfold main. rewrite Hh.
      destruct (setupConnection _ _ _ _ _ _ s) as [[err|conn] s1] eqn:H1.
      { exfalso. eapply Hno, fails_setup, H1. }
      unfold defer.
      destruct (readRequest _ _ _ _ s1) as [[request [err|]] s2] eqn:H2.
      { exfalso. eapply Hno, fails_read; eassumption. }
      destruct (sendRequest _ _ _ s2) as [[[resp text] [err|]] s3] eqn:H3.
      { exfalso. eapply Hno, fails_send; eassumption. }
      destruct (printResponse _ _ _ s3) as [[err|] s4] eqn:H4.
      { exfalso. eapply Hno, fails_print; eassumption. }
      apply setupConnection_state in H1 as [? _].
      apply readRequest_state in H2 as [? _].
      apply sendRequest_state in H3 as [? _].
      apply printResponse_state in H4 as [? _].
      cbn. split; [reflexivity | congruence].
Qed.

(** Once the connection is there, it is closed when [main] returns and
    left open when [main] ends through [log.Fatalf]. *)
Lemma main_connection (fl : Flags) (s : State) conn s1 :
  shows_help fl = false ->
  setupConnection L E (serverAddr fl) (keyFile fl) (certFile fl) (caFile fl) s
  = (inr conn, s1) ->
  st_conn (snd (main L E fl s))
  = match fst (main L E fl s) with Returned => Closed | Exited _ => Connected end.
Proof.
  unfold shows_help, main. intros -> H1. rewrite H1. unfold defer.
  apply setupConnection_state in H1 as [_ Hc]. specialize (Hc conn eq_refl).
  destruct (readRequest _ _ _ _ s1) as [[request [err|]] s2] eqn:H2;
    apply readRequest_state in H2 as [_ ?]; [cbn; congruence|].
  destruct (sendRequest _ _ _ s2) as [[[resp text] [err|]] s3] eqn:H3;
    apply sendRequest_state in H3 as [_ ?]; [cbn; congruence|].
  destruct (printResponse _ _ _ s3) as [[err|] s4] eqn:H4;
    apply printResponse_state in H4 as [_ ?]; cbn; [congruence | reflexivity].
Qed.

End Main.

(** ** Runs of the program *)

(** C4 as stated fails: with no flag given (no server address, key file
    or certificate file) [main] prints the help, returns, and the exit
    status is 0; standard error holds the flag defaults and no error
    message. *)
Lemma main_missing_credentials_exit_zero :
  serverAddr default_flags = "" /\ keyFile default_flags = ""
  /\ certFile default_flags = ""
  /\ main Sample.lib (Sample.env Sample.stdin_hex (text_reader "")) default_flags initial
     = (Returned, printCustomHelp Sample.lib initial)
  /\ exit_status
       (fst (main Sample.lib (Sample.env Sample.stdin_hex (text_reader ""))
               default_flags initial))
     = 0%Z
  /\ st_stderr
       (snd (main Sample.lib (Sample.env Sample.stdin_hex (text_reader ""))
               default_flags initial))
     = flag_defaults Sample.lib.
Proof. repeat split. Qed.

(** C5. The deferred [conn.Close()] runs when [main] returns, and is
    skipped on each of the three paths that end in [log.Fatalf] after the
    connection is established: a request that is not hexadecimal text, a
    response with a failed batch item, an unknown output format.  There
    the process ends with the connection still open. *)
Theorem main_fatal_leaves_connection_open :
  (let r := main Sample.lib
              (Sample.env (text_reader "zz") (mkReader Sample.response_ok None))
              Sample.flags initial in
   fst r = Exited 1
   /\ st_conn (snd r) = Connected
   /\ st_stderr (snd r)
      = "Failed to read request: encoding/hex: invalid byte: U+007A 'z'" ++ newline)
  /\ (let r := main Sample.lib
                 (Sample.env Sample.stdin_hex (mkReader Sample.response_failed None))
                 Sample.flags initial in
      fst r = Exited 1
      /\ st_conn (snd r) = Connected
      /\ st_stderr (snd r)
         = "Failed to send request: KMIP operation in batch item 1 failed: OperationFailed - oops"
           ++ newline)
  /\ (let r := main Sample.lib
                 (Sample.env Sample.stdin_hex (mkReader Sample.response_ok None))
                 (mkFlags "localhost:5696" "client.key" "client.pem" "" "" "hex" "json" false)
                 initial in
      fst r = Exited 1
      /\ st_conn (snd r) = Connected
      /\ st_stderr (snd r)
         = "Failed to print response: unknown output format: json" ++ newline)
  /\ (let r := main Sample.lib
                 (Sample.env Sample.stdin_hex (mkReader Sample.response_ok None))
                 Sample.flags initial in
      fst r = Returned /\ st_conn (snd r) = Closed).
Proof. vm_compute. repeat split. Qed.

(** ** The theorems at concrete inputs *)

(** The second batch item of [Sample.response_failed] is the first one
    that failed. *)
Lemma sendRequest_batch_status_witness :
  ttlv_DecodeValue Sample.lib Sample.response_failed = inr Sample.message_failed
  /\ Exists failed (BatchItem Sample.message_failed)
  /\ exists i item,
       BatchItem Sample.message_failed !! i = Some item
       /\ failed item
       /\ (forall j other, BatchItem Sample.message_failed !! j = Some other -> j < i ->
           ResultStatus_of other = ResultStatusSuccess)
       /\ fst (sendRequest Sample.lib (Sample.answering Sample.response_failed)
                 Sample.request_bytes initial)
          = (Sample.response_failed, "", Some (batch_error Sample.lib i item)).
Proof.
  assert (Hex : Exists failed (BatchItem Sample.message_failed)).
  { apply Exists_cons_tl, Exists_cons_hd. unfold failed. cbn. discriminate. }
  split; [reflexivity|]. split; [exact Hex|].
  exact (proj2 (sendRequest_batch_status Sample.lib
                  (Sample.answering Sample.response_failed) Sample.request_bytes
                  initial Sample.response_failed Sample.message_failed
                  eq_refl eq_refl eq_refl) Hex).
Defined.

(** With a CA file the one dial verifies against the pool built from it;
    without one the one dial skips the verification. *)
Lemma setupConnection_config_witness :
  tls_LoadX509KeyPair (Sample.env Sample.stdin_hex (text_reader ""))
    "client.pem" "client.key"
  = inr Sample.client_cert
  /\ ioutil_ReadFile (Sample.env Sample.stdin_hex (text_reader "")) "ca.pem"
     = inr [x2d; x2d]
  /\ dials_once (Sample.env Sample.stdin_hex (text_reader "")) "localhost:5696"
       (mkConfig [Sample.client_cert] VersionTLS12
          (Some (x509_AppendCertsFromPEM Sample.lib NewCertPool [x2d; x2d])) false)
       initial
       (setupConnection Sample.lib (Sample.env Sample.stdin_hex (text_reader ""))
          "localhost:5696" "client.key" "client.pem" "ca.pem" initial)
  /\ dials_once (Sample.env Sample.stdin_hex (text_reader "")) "localhost:5696"
       (mkConfig [Sample.client_cert] VersionTLS12 None true)
       initial
       (setupConnection Sample.lib (Sample.env Sample.stdin_hex (text_reader ""))
          "localhost:5696" "client.key" "client.pem" "" initial).
Proof.
  assert (Hca : "ca.pem" <> "") by discriminate.
  split; [reflexivity|]. split; [reflexivity|]. split.
  - exact (proj1 (proj2 (proj2 (proj2
             (setupConnection_config Sample.lib
                (Sample.env Sample.stdin_hex (text_reader ""))
                "localhost:5696" "client.key" "client.pem" "ca.pem" initial))
             Sample.client_cert eq_refl))
             Hca [x2d; x2d] eq_refl).
  - exact (proj1 (proj2 (proj2
             (setupConnection_config Sample.lib
                (Sample.env Sample.stdin_hex (text_reader ""))
                "localhost:5696" "client.key" "client.pem" "" initial))
             Sample.client_cert eq_refl)
             eq_refl).
Defined.

(** A node that is not a response message comes back with the error; a
    truncated one does not come back. *)
Lemma sendRequest_raw_response_witness :
  fst (sendRequest Sample.lib (Sample.answering Sample.response_other)
         Sample.request_bytes initial)
  = (Sample.response_other, "",
     Some (fmt_Errorf_w "failed to decode response message: "
             (errorString "not a response message")))
  /\ fst (sendRequest Sample.lib (Sample.answering Sample.response_truncated)
            Sample.request_bytes initial)
     = ([], "Unable to decode response TTLV", Some (errorString "unexpected EOF")).
Proof.
  split.
  - exact (proj2 (proj1 (sendRequest_raw_response Sample.lib
                           (Sample.answering Sample.response_other)
                           Sample.request_bytes initial eq_refl)
                    Sample.response_other eq_refl) _ eq_refl).
  - exact (proj2 (sendRequest_raw_response Sample.lib
                    (Sample.answering Sample.response_truncated)
                    Sample.request_bytes initial eq_refl)
             Sample.response_truncated _ eq_refl).
Defined.

(** Text that is not hexadecimal on standard input: exit status 1 and the
    message on standard error. *)
Lemma main_exit_status_witness :
  shows_help Sample.flags = false
  /\ exit_status
       (fst (main Sample.lib (Sample.env (text_reader "zz") (text_reader ""))
               Sample.flags initial))
     = 1%Z
  /\ st_stderr
       (snd (main Sample.lib (Sample.env (text_reader "zz") (text_reader ""))
               Sample.flags initial))
     = st_stderr initial
       ++ fatal_line ("Failed to read request: " ++ Error (hex_InvalidByteError "z")).
Proof.
  split; [reflexivity|].
  refine (proj1 (proj2 (main_exit_status Sample.lib
                          (Sample.env (text_reader "zz") (text_reader ""))
                          Sample.flags initial) eq_refl) _ _ _ _).
  eapply fails_read; reflexivity.
Defined.

(** The hexadecimal text and the XML document of the same request. *)
Lemma readRequest_hex_xml_agree_witness :
  xml_Decode Sample.lib (Strings.TrimSpace (Sample.request_xml ++ newline))
  = inr Sample.request_bytes
  /\ fst (readRequest Sample.lib
            (Sample.env (text_reader (Hex.EncodeToString Sample.request_bytes))
               (text_reader ""))
            "" "hex" initial)
     = (Sample.request_bytes, None)
  /\ fst (readRequest Sample.lib
            (Sample.env (text_reader (Sample.request_xml ++ newline)) (text_reader ""))
            "" "xml" initial)
     = (Sample.request_bytes, None)
  /\ Hex.DecodeString (Hex.EncodeToString Sample.request_bytes)
     = (Sample.request_bytes, None).
Proof.
  split; [reflexivity|].
  apply (readRequest_hex_xml_agree Sample.lib
           (Sample.env (text_reader (Hex.EncodeToString Sample.request_bytes))
              (text_reader ""))
           (Sample.env (text_reader (Sample.request_xml ++ newline)) (text_reader ""))
           "" "" initial initial Sample.request_bytes
           (Sample.request_xml ++ newline)).
  - left. split; reflexivity.
  - left. split; reflexivity.
  - reflexivity.
Defined.


(** The misspelt format [HEX] is read as hexadecimal text. *)
Lemma readRequest_unknown_format_is_hex_witness :
  "HEX" <> "xml"
  /\ readRequest Sample.lib (Sample.env Sample.stdin_hex (text_reader "")) "" "HEX" initial
     = readRequest Sample.lib (Sample.env Sample.stdin_hex (text_reader "")) "" "hex" initial
  /\ printResponse Sample.lib Sample.response_ok "HEX" initial
     = (Some (errorString ("unknown output format: " ++ "HEX")), initial).
Proof.
  assert (Hx : "HEX" <> "xml") by discriminate.
  assert (Hh : "HEX" <> "hex") by discriminate.
  destruct (readRequest_unknown_format_is_hex Sample.lib
              (Sample.env Sample.stdin_hex (text_reader "")) "" "HEX" initial
              Sample.response_ok Hx) as (Hread & _ & Hprint).
  split; [exact Hx|]. split; [exact Hread | exact (Hprint Hh)].
Defined.

(** A request between a blank and a newline, and the request alone. *)
Lemma readRequest_trims_witness :
  fst (readRequest Sample.lib
         (Sample.env (text_reader (" " ++ "4200780100000000" ++ newline)) (text_reader ""))
         "" "hex" initial)
  = fst (readRequest Sample.lib
           (Sample.env (text_reader "4200780100000000") (text_reader ""))
           "" "hex" initial)
  /\ fst (readRequest Sample.lib
            (Sample.env (text_reader (Hex.EncodeToString Sample.request_bytes ++ newline))
               (text_reader ""))
            "" "hex" initial)
     = (Sample.request_bytes, None).
Proof.
  split.
  - apply (proj1 (proj2 (proj2
             (readRequest_trims Sample.lib
                (Sample.env (text_reader (" " ++ "4200780100000000" ++ newline))
                   (text_reader ""))
                (Sample.env (text_reader "4200780100000000") (text_reader ""))
                "" "hex" initial initial)))
             " " "4200780100000000" newline).
    + apply all_space_white. reflexivity.
    + apply all_space_white. reflexivity.
    + reflexivity.
    + left. split; reflexivity.
    + left. split; reflexivity.
  - apply (proj2 (proj2 (proj2
             (readRequest_trims Sample.lib
                (Sample.env (text_reader (Hex.EncodeToString Sample.request_bytes ++ newline))
                   (text_reader ""))
                (Sample.env (text_reader "") (text_reader ""))
                "" "hex" initial initial)))
             Sample.request_bytes).
    + discriminate.
    + left. split; reflexivity.
Defined.

(** A blank and a newline as the whole XML input. *)
Lemma readRequest_empty_xml_witness :
  xml_Decode Sample.lib "" = inl io_EOF
  /\ Strings.TrimSpace (" " ++ newline) = ""
  /\ xmlToHex Sample.lib "" = ("", None)
  /\ fst (readRequest Sample.lib
            (Sample.env (text_reader (" " ++ newline)) (text_reader ""))
            "" "xml" initial)
     = ([], None).
Proof.
  split; [reflexivity|]. split; [reflexivity|].
  apply (readRequest_empty_xml Sample.lib
           (Sample.env (text_reader (" " ++ newline)) (text_reader ""))
           "" initial (" " ++ newline)).
  - reflexivity.
  - reflexivity.
  - left. split; reflexivity.
Defined.

(** * Further properties of the program *)

(** ** What the functions do to the state of the process *)

Section Effects.

Context (L : Lib) (E : Env).

(** X1. [readRequest] leaves the state of the process as it found it,
    but for the prompt on standard output when it reads standard input
    and for the call of [os.Open] on the input file otherwise: on every
    path, failing ones included, the file it opened is closed again, and
    nothing goes to standard error or to the connection. *)
Theorem readRequest_effects (inputFile format : string) (s : State) :
  snd (readRequest L E inputFile format s)
  = if inputFile =? "" then fmt_Println stdin_prompt s else log_open inputFile s.
Proof.
  unfold readRequest, stdin_prompt. destruct s.
  destruct (inputFile =? ""); cbn [negb]; [reflexivity|].
  destruct (os_Open E inputFile); reflexivity.
Qed.

(** [sendRequest] prints nothing and does not close the connection; the
    request counts as written exactly when the write returned no error,
    whatever happens to the response afterwards. *)
Lemma sendRequest_effects (conn : ReadWriter) (request : list byte) (s : State) :
  snd (sendRequest L conn request s)
  = match rw_Write conn request with
    | None => conn_written request s
    | Some _ => s
    end.
Proof.
  unfold sendRequest. destruct (rw_Write conn request); [reflexivity|].
  repeat case_match; reflexivity.
Qed.

(** X2. [printResponse] prints all or nothing: with an error the state is
    untouched, without one standard output has gained one text ending in
    a newline, and nothing else has changed. *)
Theorem printResponse_effects (response : TTLV) (format : string) (s : State) :
  (forall err, fst (printResponse L response format s) = Some err ->
               snd (printResponse L response format s) = s)
  /\ (fst (printResponse L response format s) = None ->
      exists text,
        snd (printResponse L response format s) = to_stdout (text ++ newline) s).
Proof.
  unfold printResponse. repeat case_match; cbn; split; try discriminate;
    intros; try reflexivity; eexists; reflexivity.
Qed.

Lemma setupConnection_frame (serverAddr keyFile certFile caFile : string)
  (s : State) :
  let s' := snd (setupConnection L E serverAddr keyFile certFile caFile s) in
  st_stdout s' = st_stdout s /\ st_stderr s' = st_stderr s
  /\ st_written s' = st_written s /\ st_files s' = st_files s.
Proof.
  cbv zeta. unfold setupConnection. repeat case_match; cbn; auto.
Qed.

Lemma setupConnection_opens (serverAddr keyFile certFile caFile : string)
  (s : State) :
  st_opens (snd (setupConnection L E serverAddr keyFile certFile caFile s))
  = st_opens s.
Proof. unfold setupConnection. repeat case_match; reflexivity. Qed.

Lemma printResponse_frame (response : TTLV) (format : string) (s : State) :
  let s' := snd (printResponse L response format s) in
  st_stderr s' = st_stderr s /\ st_dials s' = st_dials s
  /\ st_conn s' = st_conn s /\ st_written s' = st_written s
  /\ st_files s' = st_files s.
Proof.
  cbv zeta. unfold printResponse. repeat case_match; cbn; auto.
Qed.

(** The values the three functions return do not depend on the state. *)
Lemma readRequest_value (inputFile format : string) (s s' : State) :
  fst (readRequest L E inputFile format s) = fst (readRequest L E inputFile format s').
Proof.
  unfold readRequest. destruct (negb (inputFile =? "")); [|reflexivity].
  destruct (os_Open E inputFile); reflexivity.
Qed.

Lemma sendRequest_value (conn : ReadWriter) (request : list byte) (s s' : State) :
  fst (sendRequest L conn request s) = fst (sendRequest L conn request s').
Proof.
  unfold sendRequest. destruct (rw_Write conn request); [reflexivity|].
  destruct (ttlv_NextTTLV L (rw_Read conn request)) as [resp [err|]]; [reflexivity|].
  destruct (ttlv_DecodeValue L resp) as [err|respMsg]; [reflexivity|].
  destruct (check_batch_items L 0 (BatchItem respMsg)); reflexivity.
Qed.

Lemma printResponse_value (response : TTLV) (format : string) (s s' : State) :
  fst (printResponse L response format s) = fst (printResponse L response format s').
Proof.
  unfold printResponse. destruct (format =? "xml").
  - destruct (xml_MarshalIndent L response "" "  "); reflexivity.
  - destruct (format =? "hex"); reflexivity.
Qed.

Lemma setupConnection_value (serverAddr keyFile certFile caFile : string)
  (s s' : State) :
  fst (setupConnection L E serverAddr keyFile certFile caFile s)
  = fst (setupConnection L E serverAddr keyFile certFile caFile s').
Proof.
  unfold setupConnection.
  destruct (tls_LoadX509KeyPair E certFile keyFile); [reflexivity|].
  destruct (negb (caFile =? ""));
    [destruct (ioutil_ReadFile E caFile); [reflexivity|]|];
    destruct (tls_Dial E "tcp" serverAddr _); reflexivity.
Qed.

End Effects.

(** ** When the exchange succeeds *)

Section Exchange.

Context (L : Lib).

(** X3. [sendRequest] returns no error exactly when the write succeeds,
    one node is read, the node decodes as a response message and every
    batch item of the message has result status Success. *)
Theorem sendRequest_success_iff (conn : ReadWriter) (request : list byte)
  (s : State) :
  snd (fst (sendRequest L conn request s)) = None
  <-> (rw_Write conn request = None
       /\ exists resp respMsg,
            ttlv_NextTTLV L (rw_Read conn request) = (resp, None)
            /\ ttlv_DecodeValue L resp = inr respMsg
            /\ Forall (fun item => ResultStatus_of item = ResultStatusSuccess)
                 (BatchItem respMsg)).
Proof.
  unfold sendRequest. split.
  - destruct (rw_Write conn request); [discriminate|].
    destruct (ttlv_NextTTLV L (rw_Read conn request)) as [resp [err|]]; [discriminate|].
    destruct (ttlv_DecodeValue L resp) as [err|respMsg] eqn:Hd; [discriminate|].
    rewrite check_batch_items_find.
    destruct (list_find failed (BatchItem respMsg)) as [[k item]|] eqn:Hfind;
      [discriminate|].
    intros _. split; [reflexivity|]. exists resp, respMsg.
    split; [reflexivity|]. split; [exact Hd|].
    apply list_find_None in Hfind. eapply Forall_impl; [exact Hfind|].
    intros item Hitem. now apply dec_stable in Hitem.
  - intros (-> & resp & respMsg & -> & -> & Hall).
    rewrite check_batch_items_find.
    destruct (list_find failed (BatchItem respMsg)) as [[k item]|] eqn:Hfind;
      [|reflexivity].
    apply list_find_Some in Hfind as (Hk & Hf & _).
    rewrite Forall_lookup in Hall. now specialize (Hall _ _ Hk).
Qed.

(** X4. When [sendRequest] returns no error, the hexadecimal text it
    returns decodes to the node it returns, and it is the text that
    [printResponse] prints for that node in format [hex]. *)
Theorem sendRequest_hex_text (conn : ReadWriter) (request : list byte)
  (s s' : State) (resp : TTLV) (text : string) :
  fst (sendRequest L conn request s) = (resp, text, None) ->
  Hex.DecodeString text = (resp, None)
  /\ printResponse L resp "hex" s' = (None, to_stdout (text ++ newline) s').
Proof.
  unfold sendRequest.
  destruct (rw_Write conn request); [discriminate|].
  destruct (ttlv_NextTTLV L (rw_Read conn request)) as [resp0 [err|]]; [discriminate|].
  destruct (ttlv_DecodeValue L resp0) as [err|respMsg]; [discriminate|].
  destruct (check_batch_items L 0 (BatchItem respMsg)); [discriminate|].
  intros [= <- <-]. split; [apply DecodeString_EncodeToString | reflexivity].
Qed.

(** X5. Whenever [sendRequest] returns a node together with an error, the
    node was read whole from the stream: the error is then that of the
    decoding of the message or of a failed batch item, never one of the
    write or of the read. *)
Theorem sendRequest_node_with_error (conn : ReadWriter) (request : list byte)
  (s : State) (resp : TTLV) (text : string) (err : error) :
  fst (sendRequest L conn request s) = (resp, text, Some err) ->
  resp <> [] ->
  rw_Write conn request = None
  /\ ttlv_NextTTLV L (rw_Read conn request) = (resp, None)
  /\ text = ""
  /\ ((exists cause, ttlv_DecodeValue L resp = inl cause
                     /\ err = fmt_Errorf_w "failed to decode response message: " cause)
      \/ (exists respMsg i item,
             ttlv_DecodeValue L resp = inr respMsg
             /\ BatchItem respMsg !! i = Some item
             /\ failed item
             /\ err = batch_error L i item)).
Proof.
  unfold sendRequest.
  destruct (rw_Write conn request); [intros [= <- _ _] Hne; now destruct Hne|].
  destruct (ttlv_NextTTLV L (rw_Read conn request)) as [resp0 [err0|]];
    [intros [= <- _ _] Hne; now destruct Hne|].
  destruct (ttlv_DecodeValue L resp0) as [cause|respMsg] eqn:Hd.
  - intros [= <- <- <-] _. rewrite Hd. repeat split. left. now exists cause.
  - rewrite check_batch_items_find.
    destruct (list_find failed (BatchItem respMsg)) as [[k item]|] eqn:Hfind;
      [|discriminate].
    intros [= <- <- <-] _. rewrite Hd. repeat split. right.
    apply list_find_Some in Hfind as (Hk & Hf & _).
    exists respMsg, k, item. auto.
Qed.

End Exchange.

(** ** Failures of [setupConnection] *)

Section SetupErrors.

Context (L : Lib) (E : Env).

(** X6. The failures of [setupConnection].  The key pair is loaded
    first: if that fails, the error is returned under its text, no dial
    is made and the state is untouched.  Then, with a CA path, the file
    is read: if that fails, the error is returned under its text, no
    dial is made and the state is untouched, so an unreadable CA file
    never leads to a connection without verification.  Otherwise one
    dial is made, with the verification on when a CA path is given, and
    if it fails the error is returned under its text, the dial being the
    only trace.  Every error that [setupConnection] returns is one of
    these three. *)
Theorem setupConnection_errors (serverAddr keyFile certFile caFile : string)
  (s : State) :
  let r := setupConnection L E serverAddr keyFile certFile caFile s in
  (forall e,
      fst r = inl e ->
      (exists cause,
          tls_LoadX509KeyPair E certFile keyFile = inl cause
          /\ e = fmt_Errorf_w "failed to load client key pair: " cause
          /\ snd r = s)
      \/ (exists cause,
            caFile <> ""
            /\ ioutil_ReadFile E caFile = inl cause
            /\ e = fmt_Errorf_w "failed to read CA certificate: " cause
            /\ snd r = s)
      \/ (exists cause conf,
            tls_Dial E "tcp" serverAddr conf = inl cause
            /\ e = fmt_Errorf_w "failed to connect to server: " cause
            /\ snd r = log_dial serverAddr conf s))
  /\ (forall cause,
        tls_LoadX509KeyPair E certFile keyFile = inl cause ->
        r = (inl (fmt_Errorf_w "failed to load client key pair: " cause), s))
  /\ (forall cer cause,
        tls_LoadX509KeyPair E certFile keyFile = inr cer ->
        caFile <> "" ->
        ioutil_ReadFile E caFile = inl cause ->
        r = (inl (fmt_Errorf_w "failed to read CA certificate: " cause), s))
  /\ (forall cer,
        tls_LoadX509KeyPair E certFile keyFile = inr cer ->
        caFile = "" \/ (exists caCert, ioutil_ReadFile E caFile = inr caCert) ->
        exists conf,
          st_dials (snd r) = (st_dials s ++ [(serverAddr, conf)])%list
          /\ (caFile <> "" -> InsecureSkipVerify conf = false)
          /\ (forall cause,
                tls_Dial E "tcp" serverAddr conf = inl cause ->
                r = (inl (fmt_Errorf_w "failed to connect to server: " cause),
                     log_dial serverAddr conf s))).
Proof.
  cbv zeta. unfold setupConnection. split; [|split; [|split]].
  - intros e.
    destruct (tls_LoadX509KeyPair E certFile keyFile) as [cause|cer].
    { intros [= <-]. left. now exists cause. }
    destruct (String.eqb_spec caFile "") as [->|Hca]; cbn [negb].
    + destruct (tls_Dial E "tcp" serverAddr _) as [cause|conn] eqn:Hdial;
        [|discriminate].
      intros [= <-]. right. right. eexists cause, _. split; [exact Hdial|]. auto.
    + destruct (ioutil_ReadFile E caFile) as [cause|caCert].
      { intros [= <-]. right. left. now exists cause. }
      destruct (tls_Dial E "tcp" serverAddr _) as [cause|conn] eqn:Hdial;
        [|discriminate].
      intros [= <-]. right. right. eexists cause, _. split; [exact Hdial|]. auto.
  - intros cause ->. reflexivity.
  - intros cer cause -> Hca Hread. apply String.eqb_neq in Hca.
    now rewrite Hca, Hread.
  - intros cer -> [->|[caCert Hread]].
    + cbn [String.eqb negb]. eexists. split; [|split].
      * destruct (tls_Dial E "tcp" serverAddr _); reflexivity.
      * intros H. now destruct H.
      * intros cause Hdial. now rewrite Hdial.
    + destruct (String.eqb_spec caFile "") as [->|Hca]; cbn [negb].
      * eexists. split; [|split].
        -- destruct (tls_Dial E "tcp" serverAddr _); reflexivity.
        -- intros H. now destruct H.
        -- intros cause Hdial. now rewrite Hdial.
      * rewrite Hread. eexists. split; [|split].
        -- destruct (tls_Dial E "tcp" serverAddr _); reflexivity.
        -- reflexivity.
        -- intros cause Hdial. now rewrite Hdial.
Qed.

End SetupErrors.

(** ** Hexadecimal requests *)

Section HexRequests.

Context (L : Lib).

Import Hex.

Lemma pair_induction (P : string -> Prop) :
  P "" -> (forall c, P (String c "")) ->
  (forall c d rest, P rest -> P (String c (String d rest))) ->
  forall text, P text.
Proof.
  intros H0 H1 H2 text.
  assert (H : P text /\ forall c, P (String c text)); [|exact (proj1 H)].
  induction text as [|d text [IH IH']]; split; auto.
Qed.

Lemma DecodeString_encoded_app (src : list byte) (rest : string) :
  DecodeString (EncodeToString src ++ rest)
  = ((src ++ fst (DecodeString rest))%list, snd (DecodeString rest)).
Proof.
  induction src as [|v src IH].
  - change (EncodeToString [] ++ rest) with rest. now destruct (DecodeString rest).
  - change (EncodeToString (v :: src) ++ rest)
      with (String (hextable_at (N.shiftr (Byte.to_N v) 4))
              (String (hextable_at (N.land (Byte.to_N v) 15))
                 (EncodeToString src ++ rest))).
    rewrite decode_encoded_byte, IH. reflexivity.
Qed.

Lemma not_hex_digit (c : ascii) :
  is_hex_digit c = false -> (15 <? reverseHexTable c)%N = true.
Proof. unfold is_hex_digit. intros H. apply N.leb_gt in H. now apply N.ltb_lt. Qed.

Lemma hex_digit (c : ascii) :
  is_hex_digit c = true -> (15 <? reverseHexTable c)%N = false.
Proof. unfold is_hex_digit. intros H. apply N.leb_le in H. now apply N.ltb_ge. Qed.

Lemma DecodeString_bad_digit (c : ascii) (rest : string) :
  is_hex_digit c = false ->
  DecodeString (String c rest) = ([], Some (hex_InvalidByteError c)).
Proof.
  intros H. apply not_hex_digit in H.
  destruct rest; cbn [DecodeString]; now rewrite H.
Qed.

(** X7. In format [hex] a byte that is not a hexadecimal digit stops the
    decoding: [readRequest] returns the bytes of the digit pairs before
    it together with the bare [hex.InvalidByteError] of that byte.  White
    space between the digits is such a byte. *)
Theorem readRequest_bad_hex_digit (E : Env) (inputFile format : string)
  (s : State) (text : string) (B : list byte) (pre : string) (c : ascii)
  (rest : string) :
  reads_from E inputFile (text_reader text) ->
  format <> "xml" ->
  Strings.TrimSpace text = EncodeToString B ++ pre ++ String c rest ->
  pre = "" \/ (exists d, pre = String d "" /\ is_hex_digit d = true) ->
  is_hex_digit c = false ->
  fst (readRequest L E inputFile format s) = (B, Some (hex_InvalidByteError c)).
Proof.
  intros Hfrom Hxml Htext Hpre Hc. apply String.eqb_neq in Hxml.
  rewrite (readRequest_text _ _ _ _ _ _ Hfrom). unfold decode_text.
  rewrite Hxml, Htext, DecodeString_encoded_app.
  assert (Hd : DecodeString (pre ++ String c rest)
               = ([], Some (hex_InvalidByteError c))).
  { destruct Hpre as [->|(d & -> & Hd)].
    - now apply DecodeString_bad_digit.
    - change (String d "" ++ String c rest) with (String d (String c rest)).
      cbn [DecodeString]. now rewrite (hex_digit _ Hd), (not_hex_digit _ Hc). }
  rewrite Hd. cbn [fst snd]. now rewrite app_nil_r.
Qed.

(** X8. In format [hex] an odd number of digits is an error:
    [readRequest] returns the bytes of the whole pairs together with
    [hex.ErrLength]. *)
Theorem readRequest_odd_hex (E : Env) (inputFile format : string)
  (s : State) (text : string) (B : list byte) (d : ascii) :
  reads_from E inputFile (text_reader text) ->
  format <> "xml" ->
  Strings.TrimSpace text = EncodeToString B ++ String d "" ->
  is_hex_digit d = true ->
  fst (readRequest L E inputFile format s) = (B, Some hex_ErrLength).
Proof.
  intros Hfrom Hxml Htext Hd. apply String.eqb_neq in Hxml.
  rewrite (readRequest_text _ _ _ _ _ _ Hfrom). unfold decode_text.
  rewrite Hxml, Htext, DecodeString_encoded_app.
  cbn [DecodeString]. rewrite (hex_digit _ Hd). cbn [fst snd]. now rewrite app_nil_r.
Qed.

(** X9. In format [hex] an input of white space only, the empty input
    included, is no error: [readRequest] returns an empty request. *)
Theorem readRequest_blank_hex (E : Env) (inputFile format : string)
  (s : State) (text : string) :
  reads_from E inputFile (text_reader text) ->
  format <> "xml" ->
  white text ->
  fst (readRequest L E inputFile format s) = ([], None).
Proof.
  intros Hfrom Hxml Hwhite. apply String.eqb_neq in Hxml.
  rewrite (readRequest_text _ _ _ _ _ _ Hfrom). unfold decode_text. rewrite Hxml.
  assert (Hempty : white "") by (apply all_space_white; reflexivity).
  pose proof (TrimSpace_strip text "" "" Hwhite Hempty eq_refl) as Htrim.
  change (text ++ "" ++ "") with (text ++ "") in Htrim.
  rewrite append_empty_r in Htrim. now rewrite Htrim.
Qed.

Lemma decode_upper_byte (v : byte) (rest : string) :
  DecodeString
    (String (upperhex_at (N.shiftr (Byte.to_N v) 4))
       (String (upperhex_at (N.land (Byte.to_N v) 15)) rest))
  = (v :: fst (DecodeString rest), snd (DecodeString rest)).
Proof.
  destruct v; cbn; destruct (DecodeString rest); reflexivity.
Qed.

Lemma DecodeString_EncodeUpper (src : list byte) :
  DecodeString (EncodeUpper src) = (src, None).
Proof.
  induction src as [|v rest IH]; [reflexivity|].
  cbn [EncodeUpper]. rewrite decode_upper_byte, IH. reflexivity.
Qed.

Lemma upper_digits_plain (v : byte) :
  plain (upperhex_at (N.shiftr (Byte.to_N v) 4)) = true
  /\ plain (upperhex_at (N.land (Byte.to_N v) 15)) = true.
Proof. destruct v; split; reflexivity. Qed.

Lemma EncodeUpper_clean (src : list byte) : clean (EncodeUpper src) = true.
Proof.
  assert (H : Forall (fun c => plain c = true)
                (list_ascii_of_string (EncodeUpper src))).
  { induction src as [|v rest IH]; simpl; [constructor|].
    destruct (upper_digits_plain v). repeat constructor; assumption. }
  unfold clean. apply andb_true_intro.
  split; apply Forall_head_plain; [|apply Forall_rev]; exact H.
Qed.

(** X10. In format [hex] the digits A to F are read in upper case as in
    lower case: the upper-case text of a byte sequence, white space
    around it or not, gives the sequence back. *)
Theorem readRequest_upper_hex (E : Env) (inputFile format : string)
  (s : State) (lead trail : string) (B : list byte) :
  reads_from E inputFile (text_reader (lead ++ EncodeUpper B ++ trail)) ->
  format <> "xml" ->
  white lead -> white trail ->
  fst (readRequest L E inputFile format s) = (B, None).
Proof.
  intros Hfrom Hxml Hlead Htrail. apply String.eqb_neq in Hxml.
  rewrite (readRequest_text _ _ _ _ _ _ Hfrom). unfold decode_text. rewrite Hxml.
  rewrite TrimSpace_strip by auto using EncodeUpper_clean.
  apply DecodeString_EncodeUpper.
Qed.

End HexRequests.

(** ** What a decoded request keeps of the text *)

Section Reencode.

Context (L : Lib).

Import Hex.

Lemma nibbles (a b : N) :
  (a <= 15)%N -> (b <= 15)%N ->
  N.shiftr (Byte.to_N (byte_of_N (N.lor (N.shiftl a 4) b))) 4 = a
  /\ N.land (Byte.to_N (byte_of_N (N.lor (N.shiftl a 4) b))) 15 = b.
Proof.
  intros Ha Hb.
  assert (Ha' : (a = 0 \/ a = 1 \/ a = 2 \/ a = 3 \/ a = 4 \/ a = 5 \/ a = 6 \/ a = 7
                \/ a = 8 \/ a = 9 \/ a = 10 \/ a = 11 \/ a = 12 \/ a = 13 \/ a = 14
                \/ a = 15)%N) by lia.
  assert (Hb' : (b = 0 \/ b = 1 \/ b = 2 \/ b = 3 \/ b = 4 \/ b = 5 \/ b = 6 \/ b = 7
                \/ b = 8 \/ b = 9 \/ b = 10 \/ b = 11 \/ b = 12 \/ b = 13 \/ b = 14
                \/ b = 15)%N) by lia.
  clear Ha Hb.
  repeat (destruct Ha' as [->|Ha']); try subst a;
    repeat (destruct Hb' as [->|Hb']); try subst b; split; reflexivity.
Qed.

Lemma digit_of_value (c : ascii) :
  is_hex_digit c = true -> hextable_at (reverseHexTable c) = lower_digit c.
Proof.
  destruct c as [[] [] [] [] [] [] [] []]; intros H;
    first [ reflexivity | (vm_compute in H; discriminate H) ].
Qed.

(** Encoding what was decoded gives the text back in lower case. *)
Lemma EncodeToString_DecodeString (text : string) :
  forall B, DecodeString text = (B, None) -> EncodeToString B = lower_text text.
Proof.
  induction text as [|c|c d rest IH] using pair_induction; intros B.
  - intros [= <-]. reflexivity.
  - cbn [DecodeString]. destruct (15 <? reverseHexTable c)%N; discriminate.
  - cbn [DecodeString].
    destruct (15 <? reverseHexTable c)%N eqn:Hc; [discriminate|].
    destruct (15 <? reverseHexTable d)%N eqn:Hd; [discriminate|].
    destruct (DecodeString rest) as [dst err]. intros [= <- ->].
    apply N.ltb_ge in Hc, Hd.
    destruct (nibbles _ _ Hc Hd) as [Hhi Hlo].
    cbn [EncodeToString lower_text]. rewrite Hhi, Hlo, (IH dst eq_refl).
    rewrite !digit_of_value by (now apply N.leb_le). reflexivity.
Qed.

Lemma length_lower_text (text : string) :
  String.length (lower_text text) = String.length text.
Proof. induction text as [|c text IH]; cbn; [reflexivity | now rewrite IH]. Qed.

Lemma length_EncodeToString (src : list byte) :
  String.length (EncodeToString src) = 2 * length src.
Proof. induction src as [|v src IH]; cbn [EncodeToString String.length length]; lia. Qed.

(** X11. A request read without error in format [hex] keeps the whole
    trimmed text but for the case of the letters: encoding the bytes
    again gives the trimmed text in lower case, so the text had two
    digits for each byte and nothing else. *)
Theorem readRequest_hex_lossless (E : Env) (inputFile format : string)
  (s : State) (text : string) (B : list byte) :
  reads_from E inputFile (text_reader text) ->
  format <> "xml" ->
  fst (readRequest L E inputFile format s) = (B, None) ->
  EncodeToString B = lower_text (Strings.TrimSpace text)
  /\ String.length (Strings.TrimSpace text) = 2 * length B.
Proof.
  intros Hfrom Hxml. apply String.eqb_neq in Hxml.
  rewrite (readRequest_text _ _ _ _ _ _ Hfrom). unfold decode_text. rewrite Hxml.
  intros Hdec. apply EncodeToString_DecodeString in Hdec. split; [exact Hdec|].
  now rewrite <- length_lower_text, <- Hdec, length_EncodeToString.
Qed.

(** X12. What [printResponse] prints in format [hex] can be read back:
    given as the request text in format [hex], the printed text decodes
    to the bytes that were printed. *)
Theorem printed_hex_reads_back (E : Env) (inputFile format : string)
  (s : State) (response : TTLV) :
  reads_from E inputFile
    (text_reader (st_stdout (snd (printResponse L response "hex" initial)))) ->
  format <> "xml" ->
  fst (readRequest L E inputFile format s) = (response, None).
Proof.
  intros Hfrom Hxml. apply String.eqb_neq in Hxml.
  rewrite (readRequest_text _ _ _ _ _ _ Hfrom). unfold decode_text. rewrite Hxml.
  change (st_stdout (snd (printResponse L response "hex" initial)))
    with ("" ++ EncodeToString response ++ newline).
  rewrite TrimSpace_strip
    by (apply EncodeToString_clean || (apply all_space_white; reflexivity)).
  apply DecodeString_EncodeToString.
Qed.

(** X13. In format [xml] the only error of the conversion that
    [readRequest] can return is the one of the XML decoder, wrapped, and
    the end of file is not one: the hexadecimal decoding of the text
    that [xmlToHex] made never fails. *)
Theorem readRequest_xml_error (E : Env) (inputFile : string) (s : State)
  (text : string) (B : list byte) (e : error) :
  reads_from E inputFile (text_reader text) ->
  fst (readRequest L E inputFile "xml" s) = (B, Some e) ->
  B = []
  /\ exists cause,
       xml_Decode L (Strings.TrimSpace text) = inl cause
       /\ cause <> io_EOF
       /\ e = fmt_Errorf_w "failed to convert XML request to hex: " cause.
Proof.
  intros Hfrom. rewrite (readRequest_text _ _ _ _ _ _ Hfrom).
  unfold decode_text, xmlToHex. cbn [String.eqb Ascii.eqb Bool.eqb andb].
  destruct (xml_Decode L (Strings.TrimSpace text)) as [cause|raw].
  - destruct cause; cbn [is_EOF]; intros [= <- <-]; split; try reflexivity;
      eexists; repeat split; discriminate.
  - now rewrite DecodeString_EncodeToString.
Qed.

End Reencode.

(** ** Whole runs of [main] *)

Section Runs.

Context (L : Lib) (E : Env).

Lemma string_app_assoc (a b c : string) : (a ++ b) ++ c = a ++ b ++ c.
Proof.
  induction a as [|x a IH]; [reflexivity|].
  now rewrite !append_cons, IH.
Qed.

Lemma readRequest_fields (inputFile format : string) (s : State) :
  let s' := snd (readRequest L E inputFile format s) in
  st_stdout s'
  = st_stdout s ++ (if inputFile =? "" then stdin_prompt ++ newline else "")
  /\ st_stderr s' = st_stderr s /\ st_dials s' = st_dials s
  /\ st_conn s' = st_conn s /\ st_written s' = st_written s
  /\ st_files s' = st_files s.
Proof.
  cbv zeta. unfold readRequest, stdin_prompt.
  destruct (inputFile =? ""); cbn [negb]; [cbn; auto 10|].
  destruct (os_Open E inputFile); cbn; rewrite append_empty_r; auto 10.
Qed.

Lemma sendRequest_fields (conn : ReadWriter) (request : list byte) (s : State) :
  let r := sendRequest L conn request s in
  st_stdout (snd r) = st_stdout s /\ st_stderr (snd r) = st_stderr s
  /\ st_dials (snd r) = st_dials s /\ st_conn (snd r) = st_conn s
  /\ st_files (snd r) = st_files s
  /\ (snd (fst r) = None -> st_written (snd r) = (st_written s ++ request)%list).
Proof.
  cbv zeta. unfold sendRequest.
  destruct (rw_Write conn request); [cbn; repeat split; discriminate|].
  destruct (ttlv_NextTTLV L (rw_Read conn request)) as [resp [err|]];
    [cbn; auto 10|].
  destruct (ttlv_DecodeValue L resp) as [err|respMsg]; [cbn; auto 10|].
  destruct (check_batch_items L 0 (BatchItem respMsg)); cbn; auto 10.
Qed.

Lemma setupConnection_dialed (serverAddr keyFile certFile caFile : string)
  (s : State) (conn : ReadWriter) :
  fst (setupConnection L E serverAddr keyFile certFile caFile s) = inr conn ->
  st_conn (snd (setupConnection L E serverAddr keyFile certFile caFile s)) = Connected
  /\ exists conf,
       tls_Dial E "tcp" serverAddr conf = inr conn
       /\ st_dials (snd (setupConnection L E serverAddr keyFile certFile caFile s))
          = (st_dials s ++ [(serverAddr, conf)])%list.
Proof.
  unfold setupConnection.
  destruct (tls_LoadX509KeyPair E certFile keyFile); [discriminate|].
  destruct (negb (caFile =? ""));
    [destruct (ioutil_ReadFile E caFile); [discriminate|]|];
    (destruct (tls_Dial E "tcp" serverAddr _) as [err|conn'] eqn:Hdial;
     [discriminate|]; intros [= <-]; split; [reflexivity|];
     eexists; split; [exact Hdial | reflexivity]).
Qed.

Lemma setupConnection_refused (serverAddr keyFile certFile caFile : string)
  (s : State) (e : error) :
  fst (setupConnection L E serverAddr keyFile certFile caFile s) = inl e ->
  st_conn (snd (setupConnection L E serverAddr keyFile certFile caFile s))
  = st_conn s.
Proof.
  unfold setupConnection.
  destruct (tls_LoadX509KeyPair E certFile keyFile); [reflexivity|].
  destruct (negb (caFile =? ""));
    [destruct (ioutil_ReadFile E caFile); [reflexivity|]|];
    (destruct (tls_Dial E "tcp" serverAddr _); [reflexivity | discriminate]).
Qed.

(** X14. With [-help], or with a required flag missing, [main] does the
    same whatever the other flags and the outside world: it makes no
    dial, opens no file (no call of [os.Open] is made, and none is left
    open) and writes to no connection. *)
Theorem main_help_only (fl : Flags) (s : State) :
  shows_help fl = true ->
  (forall E' fl', shows_help fl' = true -> main L E' fl' s = main L E fl s)
  /\ st_dials (snd (main L E fl s)) = st_dials s
  /\ st_conn (snd (main L E fl s)) = st_conn s
  /\ st_written (snd (main L E fl s)) = st_written s
  /\ st_files (snd (main L E fl s)) = st_files s
  /\ st_opens (snd (main L E fl s)) = st_opens s.
Proof.
  unfold shows_help, main. intros ->. split.
  - intros E' fl' ->. reflexivity.
  - destruct s. repeat split.
Qed.

(** X15. The request is not touched before the connection stands: when
    [setupConnection] fails, [main] ends with exit status 1 without
    having printed the prompt, called [os.Open] on the input file or
    written to a connection. *)
Theorem main_setup_failure_reads_nothing (fl : Flags) (s : State) (e : error) :
  shows_help fl = false ->
  fst (setupConnection L E (serverAddr fl) (keyFile fl) (certFile fl) (caFile fl) s)
  = inl e ->
  fst (main L E fl s) = Exited 1
  /\ st_stdout (snd (main L E fl s)) = st_stdout s
  /\ st_files (snd (main L E fl s)) = st_files s
  /\ st_written (snd (main L E fl s)) = st_written s
  /\ st_conn (snd (main L E fl s)) = st_conn s
  /\ st_opens (snd (main L E fl s)) = st_opens s.
Proof.
  unfold shows_help, main. intros -> Hsetup.
  pose proof (setupConnection_frame L E (serverAddr fl) (keyFile fl) (certFile fl)
                (caFile fl) s) as (Hout & _ & Hw & Hf).
  pose proof (setupConnection_opens L E (serverAddr fl) (keyFile fl) (certFile fl)
                (caFile fl) s) as Hop.
  pose proof (setupConnection_refused _ _ _ _ _ _ Hsetup) as Hc.
  destruct (setupConnection L E _ _ _ _ s) as [r1 s1]. cbn [fst snd] in *. subst r1.
  cbn. auto 10.
Qed.

(** X16. The output format is looked at last: the dials made and the
    bytes written to the connection are the same for every output
    format, known or not. *)
Theorem main_output_format_checked_last (fl : Flags) (format : string)
  (s : State) :
  st_dials (snd (main L E (with_outputFormat format fl) s))
  = st_dials (snd (main L E fl s))
  /\ st_written (snd (main L E (with_outputFormat format fl) s))
     = st_written (snd (main L E fl s)).
Proof.
  unfold main, with_outputFormat. cbn [help serverAddr keyFile certFile caFile
    inputFile inputFormat outputFormat].
  destruct (help fl || (serverAddr fl =? "") || (keyFile fl =? "")
            || (certFile fl =? "")); [split; reflexivity|].
  destruct (setupConnection L E _ _ _ _ s) as [[err|conn] s1]; [split; reflexivity|].
  unfold defer.
  destruct (readRequest L E _ _ s1) as [[request [err|]] s2]; [split; reflexivity|].
  destruct (sendRequest L conn request s2) as [[[resp text] [err|]] s3];
    [split; reflexivity|].
  pose proof (printResponse_frame L resp format s3) as (_ & Hd & _ & Hw & _).
  pose proof (printResponse_frame L resp (outputFormat fl) s3) as (_ & Hd' & _ & Hw' & _).
  destruct (printResponse L resp format s3) as [[err|] s4];
    destruct (printResponse L resp (outputFormat fl) s3) as [[err'|] s4'];
    cbn [fst snd] in *; cbn; split; congruence.
Qed.

(** X17. An output format that is neither [hex] nor [xml] is an error
    only after the exchange: when the steps before succeed, the request
    has gone to the server, then [main] writes the error to standard
    error and ends with exit status 1, the connection not closed. *)
Theorem main_unknown_output_format (fl : Flags) (s : State)
  (conn : ReadWriter) (request : list byte) (resp : TTLV) (text : string) :
  shows_help fl = false ->
  outputFormat fl <> "hex" -> outputFormat fl <> "xml" ->
  fst (setupConnection L E (serverAddr fl) (keyFile fl) (certFile fl) (caFile fl) s)
  = inr conn ->
  fst (readRequest L E (inputFile fl) (inputFormat fl) s) = (request, None) ->
  fst (sendRequest L conn request s) = (resp, text, None) ->
  fst (main L E fl s) = Exited 1
  /\ st_written (snd (main L E fl s)) = (st_written s ++ request)%list
  /\ st_conn (snd (main L E fl s)) = Connected
  /\ st_stderr (snd (main L E fl s))
     = st_stderr s
       ++ fatal_line ("Failed to print response: unknown output format: "
                      ++ outputFormat fl).
Proof.
  unfold shows_help, main. intros -> Hhex Hxml Hsetup Hread Hsend.
  apply String.eqb_neq in Hhex, Hxml.
  pose proof (setupConnection_frame L E (serverAddr fl) (keyFile fl) (certFile fl)
                (caFile fl) s) as (_ & He1 & Hw1 & _).
  destruct (setupConnection_dialed _ _ _ _ _ _ Hsetup) as (Hc1 & _).
  destruct (setupConnection L E _ _ _ _ s) as [r1 s1]. cbn [fst snd] in *. subst r1.
  unfold defer.
  rewrite (readRequest_value L E _ _ s s1) in Hread.
  pose proof (readRequest_fields (inputFile fl) (inputFormat fl) s1)
    as (_ & He2 & _ & Hc2 & Hw2 & _).
  destruct (readRequest L E _ _ s1) as [r2 s2]. cbn [fst snd] in *. subst r2.
  rewrite (sendRequest_value L conn request s s2) in Hsend.
  pose proof (sendRequest_fields conn request s2) as (_ & He3 & _ & Hc3 & _ & Hw3).
  destruct (sendRequest L conn request s2) as [r3 s3]. cbn [fst snd] in *. subst r3.
  cbn [fst snd] in Hw3. specialize (Hw3 eq_refl).
  unfold printResponse. rewrite Hxml, Hhex. cbn.
  unfold fatal_line. repeat split; try congruence.
  rewrite He3, He2, He1. reflexivity.
Qed.

(** X18. A run in which every step succeeds, with output format [hex]:
    [main] returns, the connection is closed, one dial was made, the
    request was written to the connection, and standard output has
    gained the prompt, if the request came from standard input, and the
    hexadecimal text of the response on a line; standard error and the
    open files are as before. *)
Theorem main_success_hex (fl : Flags) (s : State)
  (conn : ReadWriter) (request : list byte) (resp : TTLV) (text : string) :
  shows_help fl = false ->
  outputFormat fl = "hex" ->
  fst (setupConnection L E (serverAddr fl) (keyFile fl) (certFile fl) (caFile fl) s)
  = inr conn ->
  fst (readRequest L E (inputFile fl) (inputFormat fl) s) = (request, None) ->
  fst (sendRequest L conn request s) = (resp, text, None) ->
  fst (main L E fl s) = Returned
  /\ st_conn (snd (main L E fl s)) = Closed
  /\ (exists conf,
        tls_Dial E "tcp" (serverAddr fl) conf = inr conn
        /\ st_dials (snd (main L E fl s))
           = (st_dials s ++ [(serverAddr fl, conf)])%list)
  /\ st_written (snd (main L E fl s)) = (st_written s ++ request)%list
  /\ st_stdout (snd (main L E fl s))
     = st_stdout s
       ++ (if inputFile fl =? "" then stdin_prompt ++ newline else "")
       ++ Hex.EncodeToString resp ++ newline
  /\ st_stderr (snd (main L E fl s)) = st_stderr s
  /\ st_files (snd (main L E fl s)) = st_files s.
Proof.
  unfold shows_help, main. intros -> Hfmt Hsetup Hread Hsend.
  pose proof (setupConnection_frame L E (serverAddr fl) (keyFile fl) (certFile fl)
                (caFile fl) s) as (Ho1 & He1 & Hw1 & Hf1).
  destruct (setupConnection_dialed _ _ _ _ _ _ Hsetup) as (Hc1 & conf & Hdial & Hd1).
  destruct (setupConnection L E _ _ _ _ s) as [r1 s1]. cbn [fst snd] in *. subst r1.
  unfold defer.
  rewrite (readRequest_value L E _ _ s s1) in Hread.
  pose proof (readRequest_fields (inputFile fl) (inputFormat fl) s1)
    as (Ho2 & He2 & Hd2 & Hc2 & Hw2 & Hf2).
  destruct (readRequest L E _ _ s1) as [r2 s2]. cbn [fst snd] in *. subst r2.
  rewrite (sendRequest_value L conn request s s2) in Hsend.
  pose proof (sendRequest_fields conn request s2)
    as (Ho3 & He3 & Hd3 & Hc3 & Hf3 & Hw3).
  destruct (sendRequest L conn request s2) as [r3 s3]. cbn [fst snd] in *. subst r3.
  cbn [fst snd] in Hw3. specialize (Hw3 eq_refl).
  unfold printResponse. rewrite Hfmt. cbn.
  split; [reflexivity|]. split; [reflexivity|].
  split; [exists conf; split; [exact Hdial | congruence]|].
  split; [congruence|]. split; [|split; congruence].
  rewrite Ho3, Ho2, Ho1. apply string_app_assoc.
Qed.

End Runs.

Section FailedRuns.

Context (L : Lib) (E : Env).

(** X19. A request that cannot be read is not sent, not even the bytes
    that were decoded before the error; the dial has been made by then,
    and [main] ends with exit status 1 and the connection not closed. *)
Theorem main_bad_request_sends_nothing (fl : Flags) (s : State)
  (conn : ReadWriter) (partial : list byte) (e : error) :
  shows_help fl = false ->
  fst (setupConnection L E (serverAddr fl) (keyFile fl) (certFile fl) (caFile fl) s)
  = inr conn ->
  fst (readRequest L E (inputFile fl) (inputFormat fl) s) = (partial, Some e) ->
  fst (main L E fl s) = Exited 1
  /\ st_written (snd (main L E fl s)) = st_written s
  /\ (exists conf,
        st_dials (snd (main L E fl s)) = (st_dials s ++ [(serverAddr fl, conf)])%list)
  /\ st_conn (snd (main L E fl s)) = Connected
  /\ st_stderr (snd (main L E fl s))
     = st_stderr s ++ fatal_line ("Failed to read request: " ++ Error e).
Proof.
  unfold shows_help, main. intros -> Hsetup Hread.
  pose proof (setupConnection_frame L E (serverAddr fl) (keyFile fl) (certFile fl)
                (caFile fl) s) as (_ & He1 & Hw1 & _).
  destruct (setupConnection_dialed _ _ _ _ _ _ _ _ Hsetup) as (Hc1 & conf & _ & Hd1).
  destruct (setupConnection L E _ _ _ _ s) as [r1 s1]. cbn [fst snd] in *. subst r1.
  unfold defer.
  rewrite (readRequest_value L E _ _ s s1) in Hread.
  pose proof (readRequest_fields L E (inputFile fl) (inputFormat fl) s1)
    as (_ & He2 & Hd2 & Hc2 & Hw2 & _).
  destruct (readRequest L E _ _ s1) as [r2 s2]. cbn [fst snd] in *. subst r2.
  cbn. unfold fatal_line. repeat split; try congruence.
  exists conf. congruence.
Qed.

(** X20. When the exchange fails, [main] prints no response, in either
    output format: the node that [sendRequest] returns alongside the
    error of a failed batch item or of an undecodable message is dropped.
    Standard output holds at most the prompt. *)
Theorem main_failed_exchange_prints_nothing (fl : Flags) (s : State)
  (conn : ReadWriter) (request : list byte) (resp : TTLV) (text : string)
  (e : error) :
  shows_help fl = false ->
  fst (setupConnection L E (serverAddr fl) (keyFile fl) (certFile fl) (caFile fl) s)
  = inr conn ->
  fst (readRequest L E (inputFile fl) (inputFormat fl) s) = (request, None) ->
  fst (sendRequest L conn request s) = (resp, text, Some e) ->
  fst (main L E fl s) = Exited 1
  /\ st_stdout (snd (main L E fl s))
     = st_stdout s ++ (if inputFile fl =? "" then stdin_prompt ++ newline else "")
  /\ st_stderr (snd (main L E fl s))
     = st_stderr s ++ fatal_line ("Failed to send request: " ++ Error e).
Proof.
  unfold shows_help, main. intros -> Hsetup Hread Hsend.
  pose proof (setupConnection_frame L E (serverAddr fl) (keyFile fl) (certFile fl)
                (caFile fl) s) as (Ho1 & He1 & _ & _).
  destruct (setupConnection L E _ _ _ _ s) as [r1 s1]. cbn [fst snd] in *. subst r1.
  unfold defer.
  rewrite (readRequest_value L E _ _ s s1) in Hread.
  pose proof (readRequest_fields L E (inputFile fl) (inputFormat fl) s1)
    as (Ho2 & He2 & _).
  destruct (readRequest L E _ _ s1) as [r2 s2]. cbn [fst snd] in *. subst r2.
  rewrite (sendRequest_value L conn request s s2) in Hsend.
  pose proof (sendRequest_fields L conn request s2) as (Ho3 & He3 & _).
  destruct (sendRequest L conn request s2) as [r3 s3]. cbn [fst snd] in *. subst r3.
  cbn. unfold fatal_line. repeat split; congruence.
Qed.

End FailedRuns.

(** ** The further properties at concrete inputs *)

Lemma sendRequest_hex_text_witness :
  Hex.DecodeString
    "42007b010000001842000f010000001042007f05000000040000000000000000"
  = (Sample.response_ok, None)
  /\ printResponse Sample.lib Sample.response_ok "hex" initial
     = (None,
        to_stdout
          ("42007b010000001842000f010000001042007f05000000040000000000000000"
           ++ newline) initial).
Proof.
  apply (sendRequest_hex_text Sample.lib (Sample.answering Sample.response_ok)
           Sample.request_bytes initial initial Sample.response_ok).
  reflexivity.
Defined.

Lemma sendRequest_node_with_error_witness :
  rw_Write (Sample.answering Sample.response_other) Sample.request_bytes = None
  /\ ttlv_NextTTLV Sample.lib
       (rw_Read (Sample.answering Sample.response_other) Sample.request_bytes)
     = (Sample.response_other, None)
  /\ "" = ""
  /\ ((exists cause,
         ttlv_DecodeValue Sample.lib Sample.response_other = inl cause
         /\ fmt_Errorf_w "failed to decode response message: "
              (errorString "not a response message")
            = fmt_Errorf_w "failed to decode response message: " cause)
      \/ (exists respMsg i item,
             ttlv_DecodeValue Sample.lib Sample.response_other = inr respMsg
             /\ BatchItem respMsg !! i = Some item
             /\ failed item
             /\ fmt_Errorf_w "failed to decode response message: "
                  (errorString "not a response message")
                = batch_error Sample.lib i item)).
Proof.
  apply (sendRequest_node_with_error Sample.lib
           (Sample.answering Sample.response_other) Sample.request_bytes initial
           Sample.response_other ""
           (fmt_Errorf_w "failed to decode response message: "
              (errorString "not a response message"))).
  - reflexivity.
  - discriminate.
Defined.

(** A CA file that is not there. *)
Lemma setupConnection_errors_witness :
  tls_LoadX509KeyPair (Sample.env Sample.stdin_hex (text_reader ""))
    "client.pem" "client.key"
  = inr Sample.client_cert
  /\ ioutil_ReadFile (Sample.env Sample.stdin_hex (text_reader "")) "missing.pem"
     = inl (errorString "open missing.pem: no such file or directory")
  /\ setupConnection Sample.lib (Sample.env Sample.stdin_hex (text_reader ""))
       "localhost:5696" "client.key" "client.pem" "missing.pem" initial
     = (inl (fmt_Errorf_w "failed to read CA certificate: "
               (errorString "open missing.pem: no such file or directory")),
        initial).
Proof.
  assert (Hca : "missing.pem" <> "") by discriminate.
  split; [reflexivity|]. split; [reflexivity|].
  exact (proj1 (proj2 (proj2
           (setupConnection_errors Sample.lib
              (Sample.env Sample.stdin_hex (text_reader ""))
              "localhost:5696" "client.key" "client.pem" "missing.pem" initial)))
           Sample.client_cert
           (errorString "open missing.pem: no such file or directory")
           eq_refl Hca eq_refl).
Defined.

(** A blank between two digit pairs. *)
Lemma readRequest_bad_hex_digit_witness :
  fst (readRequest Sample.lib (Sample.env (text_reader "4200 78") (text_reader ""))
         "" "hex" initial)
  = ([x42; x00], Some (hex_InvalidByteError " ")).
Proof.
  apply (readRequest_bad_hex_digit Sample.lib
           (Sample.env (text_reader "4200 78") (text_reader ""))
           "" "hex" initial "4200 78" [x42; x00] "" " " "78").
  - left. split; reflexivity.
  - discriminate.
  - reflexivity.
  - left. reflexivity.
  - reflexivity.
Defined.

Lemma readRequest_odd_hex_witness :
  fst (readRequest Sample.lib (Sample.env (text_reader "420") (text_reader ""))
         "" "hex" initial)
  = ([x42], Some hex_ErrLength).
Proof.
  apply (readRequest_odd_hex Sample.lib
           (Sample.env (text_reader "420") (text_reader ""))
           "" "hex" initial "420" [x42] "0").
  - left. split; reflexivity.
  - discriminate.
  - reflexivity.
  - reflexivity.
Defined.

Lemma readRequest_blank_hex_witness :
  fst (readRequest Sample.lib
         (Sample.env (text_reader (" " ++ newline)) (text_reader ""))
         "" "hex" initial)
  = ([], None).
Proof.
  apply (readRequest_blank_hex Sample.lib
           (Sample.env (text_reader (" " ++ newline)) (text_reader ""))
           "" "hex" initial (" " ++ newline)).
  - left. split; reflexivity.
  - discriminate.
  - apply all_space_white. reflexivity.
Defined.

Lemma readRequest_upper_hex_witness :
  fst (readRequest Sample.lib
         (Sample.env (text_reader ("" ++ EncodeUpper [xab; xcd] ++ newline))
            (text_reader ""))
         "" "hex" initial)
  = ([xab; xcd], None).
Proof.
  apply (readRequest_upper_hex Sample.lib
           (Sample.env (text_reader ("" ++ EncodeUpper [xab; xcd] ++ newline))
              (text_reader ""))
           "" "hex" initial "" newline [xab; xcd]).
  - left. split; reflexivity.
  - discriminate.
  - apply all_space_white. reflexivity.
  - apply all_space_white. reflexivity.
Defined.

Lemma readRequest_hex_lossless_witness :
  Hex.EncodeToString [xab; xcd]
  = lower_text (Strings.TrimSpace ("AbCd" ++ newline))
  /\ String.length (Strings.TrimSpace ("AbCd" ++ newline)) = 2 * length [xab; xcd].
Proof.
  apply (readRequest_hex_lossless Sample.lib
           (Sample.env (text_reader ("AbCd" ++ newline)) (text_reader ""))
           "" "hex" initial ("AbCd" ++ newline) [xab; xcd]).
  - left. split; reflexivity.
  - discriminate.
  - reflexivity.
Defined.

Lemma printed_hex_reads_back_witness :
  fst (readRequest Sample.lib
         (Sample.env
            (text_reader
               (st_stdout (snd (printResponse Sample.lib Sample.response_ok "hex"
                                  initial))))
            (text_reader ""))
         "" "hex" initial)
  = (Sample.response_ok, None).
Proof.
  apply (printed_hex_reads_back Sample.lib
           (Sample.env
              (text_reader
                 (st_stdout (snd (printResponse Sample.lib Sample.response_ok "hex"
                                    initial))))
              (text_reader ""))
           "" "hex" initial Sample.response_ok).
  - left. split; reflexivity.
  - discriminate.
Defined.

Lemma readRequest_xml_error_witness :
  @nil byte = []
  /\ exists cause,
       xml_Decode Sample.lib (Strings.TrimSpace "<RequestMessage>") = inl cause
       /\ cause <> io_EOF
       /\ fmt_Errorf_w "failed to convert XML request to hex: "
            (errorString "XML syntax error")
          = fmt_Errorf_w "failed to convert XML request to hex: " cause.
Proof.
  apply (readRequest_xml_error Sample.lib
           (Sample.env (text_reader "<RequestMessage>") (text_reader ""))
           "" initial "<RequestMessage>" []
           (fmt_Errorf_w "failed to convert XML request to hex: "
              (errorString "XML syntax error"))).
  - left. split; reflexivity.
  - reflexivity.
Defined.

(** [-help] beside a complete command line with an input file. *)
Lemma main_help_only_witness :
  st_dials
    (snd (main Sample.lib (Sample.env Sample.stdin_hex (text_reader ""))
            (mkFlags "localhost:5696" "client.key" "client.pem" "" "request.hex"
               "hex" "hex" true)
            initial))
  = []
  /\ st_opens
       (snd (main Sample.lib (Sample.env Sample.stdin_hex (text_reader ""))
               (mkFlags "localhost:5696" "client.key" "client.pem" "" "request.hex"
                  "hex" "hex" true)
               initial))
     = []
  /\ main Sample.lib (Sample.env Sample.stdin_hex (text_reader "")) default_flags initial
     = main Sample.lib (Sample.env Sample.stdin_hex (text_reader ""))
         (mkFlags "localhost:5696" "client.key" "client.pem" "" "request.hex"
            "hex" "hex" true)
         initial.
Proof.
  destruct (main_help_only Sample.lib (Sample.env Sample.stdin_hex (text_reader ""))
              (mkFlags "localhost:5696" "client.key" "client.pem" "" "request.hex"
                 "hex" "hex" true)
              initial eq_refl) as (Hsame & Hdials & _ & _ & _ & Hopens).
  split; [exact Hdials|]. split; [exact Hopens|].
  exact (Hsame (Sample.env Sample.stdin_hex (text_reader "")) default_flags eq_refl).
Defined.

(** No server at the address, the request in a file. *)
Lemma main_setup_failure_reads_nothing_witness :
  fst (main Sample.lib (Sample.env Sample.stdin_hex (text_reader ""))
         (mkFlags "nowhere:1" "client.key" "client.pem" "" "request.hex"
            "hex" "hex" false)
         initial)
  = Exited 1
  /\ st_stdout
       (snd (main Sample.lib (Sample.env Sample.stdin_hex (text_reader ""))
               (mkFlags "nowhere:1" "client.key" "client.pem" "" "request.hex"
                  "hex" "hex" false)
               initial))
     = ""
  /\ st_opens
       (snd (main Sample.lib (Sample.env Sample.stdin_hex (text_reader ""))
               (mkFlags "nowhere:1" "client.key" "client.pem" "" "request.hex"
                  "hex" "hex" false)
               initial))
     = [].
Proof.
  destruct (main_setup_failure_reads_nothing Sample.lib
              (Sample.env Sample.stdin_hex (text_reader ""))
              (mkFlags "nowhere:1" "client.key" "client.pem" "" "request.hex"
                 "hex" "hex" false)
              initial
              (fmt_Errorf_w "failed to connect to server: "
                 (errorString "dial tcp nowhere:1: connection refused"))
              eq_refl eq_refl) as (Hexit & Hout & _ & _ & _ & Hopens).
  split; [exact Hexit|]. split; [exact Hout | exact Hopens].
Defined.

Lemma main_unknown_output_format_witness :
  fst (main Sample.lib (Sample.env Sample.stdin_hex (mkReader Sample.response_ok None))
         (mkFlags "localhost:5696" "client.key" "client.pem" "" "" "hex" "json" false)
         initial)
  = Exited 1
  /\ st_written
       (snd (main Sample.lib
               (Sample.env Sample.stdin_hex (mkReader Sample.response_ok None))
               (mkFlags "localhost:5696" "client.key" "client.pem" "" "" "hex" "json" false)
               initial))
     = Sample.request_bytes.
Proof.
  destruct (main_unknown_output_format Sample.lib
              (Sample.env Sample.stdin_hex (mkReader Sample.response_ok None))
              (mkFlags "localhost:5696" "client.key" "client.pem" "" "" "hex" "json" false)
              initial (Sample.answering Sample.response_ok) Sample.request_bytes
              Sample.response_ok (Hex.EncodeToString Sample.response_ok))
    as (Hexit & Hw & _); try reflexivity; try discriminate.
  split; [exact Hexit | exact Hw].
Defined.

Lemma main_success_hex_witness :
  fst (main Sample.lib (Sample.env Sample.stdin_hex (mkReader Sample.response_ok None))
         Sample.flags initial)
  = Returned
  /\ st_conn
       (snd (main Sample.lib
               (Sample.env Sample.stdin_hex (mkReader Sample.response_ok None))
               Sample.flags initial))
     = Closed.
Proof.
  destruct (main_success_hex Sample.lib
              (Sample.env Sample.stdin_hex (mkReader Sample.response_ok None))
              Sample.flags initial (Sample.answering Sample.response_ok)
              Sample.request_bytes Sample.response_ok
              (Hex.EncodeToString Sample.response_ok))
    as (Hret & Hconn & _); try reflexivity.
  split; [exact Hret | exact Hconn].
Defined.

Lemma main_bad_request_sends_nothing_witness :
  fst (main Sample.lib (Sample.env (text_reader "42zz") (text_reader ""))
         Sample.flags initial)
  = Exited 1
  /\ st_written
       (snd (main Sample.lib (Sample.env (text_reader "42zz") (text_reader ""))
               Sample.flags initial))
     = [].
Proof.
  destruct (main_bad_request_sends_nothing Sample.lib
              (Sample.env (text_reader "42zz") (text_reader ""))
              Sample.flags initial (Sample.answering [])
              [x42] (hex_InvalidByteError "z"))
    as (Hexit & Hw & _); try reflexivity.
  split; [exact Hexit | exact Hw].
Defined.

Lemma main_failed_exchange_prints_nothing_witness :
  fst (main Sample.lib
         (Sample.env Sample.stdin_hex (mkReader Sample.response_failed None))
         Sample.flags initial)
  = Exited 1
  /\ st_stdout
       (snd (main Sample.lib
               (Sample.env Sample.stdin_hex (mkReader Sample.response_failed None))
               Sample.flags initial))
     = "" ++ stdin_prompt ++ newline.
Proof.
  destruct (main_failed_exchange_prints_nothing Sample.lib
              (Sample.env Sample.stdin_hex (mkReader Sample.response_failed None))
              Sample.flags initial (Sample.answering Sample.response_failed)
              Sample.request_bytes Sample.response_failed ""
              (batch_error Sample.lib 1 (mkBatchItem 0 1%N 0 "oops")))
    as (Hexit & Hout & _); try reflexivity.
  split; [exact Hexit | exact Hout].
Defined.
